(** * Canvas Viewport plugin (obsidian-canvas-viewport, [src/main.ts])

    A shallow embedding of the plugin class [CanvasViewportPlugin] in its
    per-device form (the second class of [src/main.ts]: [viewports] mapping,
    [getViewportKey], debug settings), and the properties of the Open-Event
    Classifier, the Viewport Store and the Camera Applier.

    - JavaScript values are the inductive [value]; numbers are IEEE doubles
      ([PrimFloat.float]).
    - The JavaScript runtime ([JSON.parse], [JSON.stringify], [ToNumber] on
      strings, arrays and objects) and the host's live canvas object are
      interfaces ([Runtime], [CanvasHost]): the plugin only calls them.
    - The methods are written in a state-and-exception monad [M] over the
      plugin fields and the host state (vault, open leaves, notices,
      console, pending animation frames). *)

From Stdlib Require Import String List Bool Arith Lia ZArith NArith Ascii DecimalString.
From Stdlib Require Import PrimFloat FloatOps SpecFloat.
Import ListNotations.
Local Open Scope string_scope.
Local Open Scope list_scope.

Set Implicit Arguments.
Set Warnings "-register-all".

(* ================================================================== *)
(** * JavaScript values *)
(* ================================================================== *)

(** The values the plugin handles: what [JSON.parse] returns, plus
    [undefined] and the named (non-index) properties an array object may
    carry once the plugin has assigned one. *)
Inductive value : Type :=
| VUndefined
| VNull
| VBool (b : bool)
| VNumber (n : float)
| VString (s : string)
| VArray (elems : list value) (props : list (string * value))
| VObject (fields : list (string * value)).

Inductive exn : Type :=
| TypeError (msg : string)
| SyntaxError
| HostError (msg : string).

Inductive result (A : Type) : Type :=
| Ok (a : A)
| Throw (e : exn).
Arguments Ok {A} a.
Arguments Throw {A} e.

(** ToBoolean.  Falsy: [undefined], [null], [false], [0], [-0], [NaN], [""]. *)
Definition truthy (v : value) : bool :=
  match v with
  | VUndefined | VNull => false
  | VBool b => b
  | VNumber n => negb (PrimFloat.eqb n 0%float || PrimFloat.is_nan n)
  | VString s => negb (String.eqb s "")
  | VArray _ _ | VObject _ => true
  end.

(** ** Own properties, in insertion order *)

Section Assoc.
Variable A : Type.

Fixpoint assoc_get (k : string) (l : list (string * A)) : option A :=
  match l with
  | [] => None
  | (k', x) :: l' => if String.eqb k k' then Some x else assoc_get k l'
  end.

(** Assignment keeps the position of an existing key and appends a new one. *)
Fixpoint assoc_set (k : string) (x : A) (l : list (string * A)) : list (string * A) :=
  match l with
  | [] => [(k, x)]
  | (k', y) :: l' =>
      if String.eqb k k' then (k, x) :: l' else (k', y) :: assoc_set k x l'
  end.

Definition assoc_remove (k : string) (l : list (string * A)) : list (string * A) :=
  filter (fun kv => negb (String.eqb k (fst kv))) l.

Definition keys (l : list (string * A)) : list string := map fst l.

(** Every own property except [k], in order. *)
Definition others (k : string) (l : list (string * A)) : list (string * A) :=
  assoc_remove k l.
End Assoc.

(** ** Property access

    The keys the plugin uses are ["viewports"], ["tx"], ["ty"], ["tZoom"]
    and the viewport key (["global"] or a device identifier of the form
    [<type>_<w>x<h>@<ratio>x]).  None of them is an array index, ["length"],
    or a name inherited from a built-in prototype, so a property read is an
    own-property lookup. *)

(** [v[k]] *)
Definition get_prop (v : value) (k : string) : result value :=
  match v with
  | VUndefined | VNull => Throw (TypeError "Cannot read properties of null or undefined")
  | VObject fields =>
      Ok match assoc_get k fields with Some x => x | None => VUndefined end
  | VArray _ props =>
      Ok match assoc_get k props with Some x => x | None => VUndefined end
  | VBool _ | VNumber _ | VString _ => Ok VUndefined
  end.

(** [v?.[k]] *)
Definition get_prop_opt (v : value) (k : string) : result value :=
  match v with
  | VUndefined | VNull => Ok VUndefined
  | _ => get_prop v k
  end.

(** [v[k] = x], in strict mode (class bodies are strict): assigning to a
    property of a primitive is a TypeError. *)
Definition set_prop (v : value) (k : string) (x : value) : result value :=
  match v with
  | VUndefined | VNull => Throw (TypeError "Cannot set properties of null or undefined")
  | VBool _ | VNumber _ | VString _ => Throw (TypeError "Cannot create property on primitive")
  | VObject fields => Ok (VObject (assoc_set k x fields))
  | VArray elems props => Ok (VArray elems (assoc_set k x props))
  end.

(** [delete v[k]] *)
Definition delete_prop (v : value) (k : string) : result value :=
  match v with
  | VUndefined | VNull => Throw (TypeError "Cannot convert undefined or null to object")
  | VBool _ | VNumber _ | VString _ => Ok v
  | VObject fields => Ok (VObject (assoc_remove k fields))
  | VArray elems props => Ok (VArray elems (assoc_remove k props))
  end.

(** [Object.keys(v).length] *)
Definition keys_length (v : value) : result nat :=
  match v with
  | VUndefined | VNull => Throw (TypeError "Cannot convert undefined or null to object")
  | VBool _ | VNumber _ => Ok 0
  | VString s => Ok (String.length s)
  | VArray elems props => Ok (length elems + length props)
  | VObject fields => Ok (length fields)
  end.

(* ================================================================== *)
(** * Runtime and host interfaces *)
(* ================================================================== *)

(** The JavaScript runtime.  [JSON_parse] is [JSON.parse] ([None] for a
    SyntaxError); [JSON_stringify v] is [JSON.stringify(v, null, 2)];
    [StringToNumber] is ToNumber on a string, which always gives a number;
    [ToNumber_object] is ToNumber on an array or an object, that is
    ToPrimitive with hint number followed by ToNumber, which throws a
    TypeError when neither [valueOf] nor [toString] gives a primitive. *)
Class Runtime : Type := {
  JSON_parse : string -> option value;
  JSON_stringify : value -> string;
  StringToNumber : string -> float;
  ToNumber_object : value -> result float
}.

(** The host's live canvas object ([CanvasView.canvas]).  [tx] and [ty] are
    numbers as the interface declares them; [tZoom] may still be
    [undefined], which [restoreViewport] tests for.  [zoomBy], [panTo] and
    [markViewportChanged] are internal host methods reached through
    [(canvas as any)]: each may throw (a missing method is a TypeError). *)
Class CanvasHost : Type := {
  canvas : Type;
  canvas_tx : canvas -> float;
  canvas_ty : canvas -> float;
  canvas_tZoom : canvas -> option float;
  zoomBy : float -> canvas -> result canvas;
  panTo : value -> value -> canvas -> result canvas;
  markViewportChanged : canvas -> result canvas;
  requestFrame : canvas -> result canvas
}.

Record TFile : Type := { path : string; extension : string }.

(** interface CameraPosition *)
Record CameraPosition : Type := { tx : float; ty : float; tZoom : float }.

(** The object literal [{ tx: ..., ty: ..., tZoom: ... }]. *)
Definition position_value (p : CameraPosition) : value :=
  VObject [("tx", VNumber (tx p)); ("ty", VNumber (ty p)); ("tZoom", VNumber (tZoom p))].

(** interface CanvasViewportSettings *)
Record CanvasViewportSettings : Type := {
  debugMode : bool;
  useGlobalViewport : bool
}.

Definition DEFAULT_SETTINGS : CanvasViewportSettings :=
  {| debugMode := false; useGlobalViewport := false |}.

(** The flags of the host's [Platform] object that [getDeviceIdentifier]
    reads. *)
Record Platform : Type := {
  isMacOS : bool;
  isWin : bool;
  isLinux : bool;
  isMobile : bool;
  isPhone : bool;
  isTablet : bool;
  isIosApp : bool;
  isAndroidApp : bool;
  isDesktopApp : bool
}.

(** [getDeviceIdentifier], the value [onload] stores in [currentDevice].
    [width], [height] and [pixelRatio] are the renderings of
    [window.screen.width], [window.screen.height] and
    [window.devicePixelRatio] in the template literals. *)
Definition getDeviceIdentifier (P : Platform) (width height pixelRatio : string) : string :=
  let deviceType :=
    if isMacOS P then "MacOS"
    else if isWin P then "Windows"
    else if isLinux P then "Linux"
    else "Unknown" in
  let deviceType :=
    (if isMobile P then
       let deviceType :=
         if isPhone P then deviceType ++ "_Phone"
         else if isTablet P then deviceType ++ "_Tablet"
         else deviceType in
       if isIosApp P then "iOS_" ++ deviceType
       else if isAndroidApp P then "Android_" ++ deviceType
       else deviceType
     else if isDesktopApp P then deviceType ++ "_Desktop"
     else deviceType)%string in
  let resolution := (width ++ "x" ++ height)%string in
  (deviceType ++ "_" ++ resolution ++ "@" ++ pixelRatio ++ "x")%string.

(** A canvas object is referred to by its address in the host's store. *)
Definition canvas_ref : Type := nat.

(** interface CanvasView: [canvas] may be absent ([!view?.canvas],
    [!canvas]); [file] is a [TFile] as declared. *)
Record CanvasView : Type := { view_canvas : option canvas_ref; view_file : TFile }.

(** The callback [restoreViewport] hands to [requestAnimationFrame],
    with the variables it closes over. *)
Inductive frame_task : Type :=
| ApplyViewport (c : canvas_ref) (zoomDelta : float) (position : value).

Section Plugin.
Context {RT : Runtime} {CH : CanvasHost}.

(** Plugin fields ([openCanvasFiles], [currentDevice], [settings]) and the
    host state the plugin reads and writes.  [restorations] is a ghost
    field: the files [restoreViewport] has been entered with. *)
Record state : Type := mkState {
  openCanvasFiles : list string;
  currentDevice : string;
  settings : CanvasViewportSettings;
  vault : list (string * string);
  leaves : list CanvasView;
  canvases : canvas_ref -> canvas;
  notices : list string;
  console_errors : list string;
  frames : list frame_task;
  restorations : list TFile
}.

Definition with_openCanvasFiles (l : list string) (s : state) : state :=
  mkState l (currentDevice s) (settings s) (vault s) (leaves s) (canvases s)
          (notices s) (console_errors s) (frames s) (restorations s).
Definition with_vault (v : list (string * string)) (s : state) : state :=
  mkState (openCanvasFiles s) (currentDevice s) (settings s) v (leaves s) (canvases s)
          (notices s) (console_errors s) (frames s) (restorations s).
Definition with_canvases (h : canvas_ref -> canvas) (s : state) : state :=
  mkState (openCanvasFiles s) (currentDevice s) (settings s) (vault s) (leaves s) h
          (notices s) (console_errors s) (frames s) (restorations s).
Definition with_notices (l : list string) (s : state) : state :=
  mkState (openCanvasFiles s) (currentDevice s) (settings s) (vault s) (leaves s) (canvases s)
          l (console_errors s) (frames s) (restorations s).
Definition with_console_errors (l : list string) (s : state) : state :=
  mkState (openCanvasFiles s) (currentDevice s) (settings s) (vault s) (leaves s) (canvases s)
          (notices s) l (frames s) (restorations s).
Definition with_frames (l : list frame_task) (s : state) : state :=
  mkState (openCanvasFiles s) (currentDevice s) (settings s) (vault s) (leaves s) (canvases s)
          (notices s) (console_errors s) l (restorations s).
Definition with_restorations (l : list TFile) (s : state) : state :=
  mkState (openCanvasFiles s) (currentDevice s) (settings s) (vault s) (leaves s) (canvases s)
          (notices s) (console_errors s) (frames s) l.

(** The content of [file] in the vault, if the file exists. *)
Definition content_of (s : state) (file : TFile) : option string :=
  assoc_get (path file) (vault s).

(** ** The monad: state, and exceptions that keep the state reached *)

Definition M (A : Type) : Type := state -> result A * state.

Definition ret {A} (a : A) : M A := fun s => (Ok a, s).
Definition bind {A B} (m : M A) (k : A -> M B) : M B :=
  fun s => match m s with
           | (Ok a, s') => k a s'
           | (Throw e, s') => (Throw e, s')
           end.
Definition throw {A} (e : exn) : M A := fun s => (Throw e, s).
Definition lift {A} (r : result A) : M A := fun s => (r, s).
Definition gets {A} (f : state -> A) : M A := fun s => (Ok (f s), s).
Definition modify_state (f : state -> state) : M unit := fun s => (Ok tt, f s).

(** [try { body } catch (error) { handler }] *)
Definition try_catch {A} (body : M A) (handler : exn -> M A) : M A :=
  fun s => match body s with
           | (Ok a, s') => (Ok a, s')
           | (Throw e, s') => handler e s'
           end.
End Plugin.

Declare Scope m_scope.
Delimit Scope m_scope with M.
Notation "x <- m ;; k" := (bind m (fun x => k))
  (at level 61, m at next level, right associativity) : m_scope.
Notation "m ;; k" := (bind m (fun _ => k))
  (at level 61, right associativity) : m_scope.

Local Open Scope m_scope.

(* ================================================================== *)
(** * The plugin's methods *)
(* ================================================================== *)

(** The debug channel ([log], [logGroup], [logGroupEnd]) only prints to the
    developer console when [settings.debugMode] is set; it reads no result
    and changes no state, and is left out of the embedding. *)

Section Methods.
Context {RT : Runtime} {CH : CanvasHost}.

(** ** Host calls *)

(** [this.app.vault.read(file)]: rejects when the file does not exist. *)
Definition vault_read (file : TFile) : M string :=
  fun s => match content_of s file with
           | Some content => (Ok content, s)
           | None => (Throw (HostError "File not found"), s)
           end.

(** [this.app.vault.modify(file, data)]: replaces the whole content;
    rejects when the file does not exist. *)
Definition vault_modify (file : TFile) (data : string) : M unit :=
  fun s => match content_of s file with
           | Some _ => (Ok tt, with_vault (assoc_set (path file) data (vault s)) s)
           | None => (Throw (HostError "File not found"), s)
           end.

(** [JSON.parse(content)] *)
Definition parse (content : string) : M value :=
  match JSON_parse content with
  | Some v => ret v
  | None => throw SyntaxError
  end.

(** [new Notice(msg)] *)
Definition Notice (msg : string) : M unit :=
  modify_state (fun s => with_notices (notices s ++ [msg]) s).

(** [console.error(msg, error)] *)
Definition console_error (msg : string) : M unit :=
  modify_state (fun s => with_console_errors (console_errors s ++ [msg]) s).

(** [this.app.workspace.getLeavesOfType('canvas')] *)
Definition getLeavesOfType_canvas : M (list CanvasView) := gets leaves.

(** [requestAnimationFrame(callback)]: queues the callback for the next
    paint and returns. *)
Definition requestAnimationFrame (task : frame_task) : M unit :=
  modify_state (fun s => with_frames (frames s ++ [task]) s).

(** A method call on the canvas object at [c]. *)
Definition canvas_call (c : canvas_ref) (method : canvas -> result canvas) : M unit :=
  fun s => match method (canvases s c) with
           | Ok obj =>
               (Ok tt,
                with_canvases (fun r => if Nat.eqb r c then obj else canvases s r) s)
           | Throw e => (Throw e, s)
           end.

(** ** JavaScript operators *)

(** ToNumber, as the operands of [-] go through it.  It can throw on an
    array or an object only. *)
Definition ToNumber (v : value) : result float :=
  match v with
  | VUndefined => Ok PrimFloat.nan
  | VNull => Ok 0%float
  | VBool b => Ok (if b then 1%float else 0%float)
  | VNumber n => Ok n
  | VString s => Ok (StringToNumber s)
  | VArray _ _ | VObject _ => ToNumber_object v
  end.

(** [obj[k]] is an object the statement [update] changes in place; the
    change is seen through [obj]. *)
Definition mutate_prop (obj : value) (k : string) (update : value -> result value)
  : result value :=
  match get_prop obj k with
  | Throw e => Throw e
  | Ok inner =>
      match update inner with
      | Throw e => Throw e
      | Ok inner' => set_prop obj k inner'
      end
  end.

(** [Array.prototype.includes] on strings *)
Definition includes (l : list string) (x : string) : bool :=
  existsb (String.eqb x) l.

(** ** getViewportKey *)

(** The key in state [s]: [settings.useGlobalViewport ? 'global' : currentDevice]. *)
Definition viewport_key (s : state) : string :=
  if useGlobalViewport (settings s) then "global" else currentDevice s.

Definition getViewportKey : M string := gets viewport_key.

(** ** loadSavedPosition *)

Definition loadSavedPosition (file : TFile) : M value :=
  try_catch
    (content <- vault_read file ;;
     canvasData <- parse content ;;
     viewportKey <- getViewportKey ;;
     viewports <- lift (get_prop canvasData "viewports") ;;
     entry <- lift (get_prop_opt viewports viewportKey) ;;
     let position := if truthy entry then entry else VNull in
     ret position)
    (fun error =>
       console_error "Failed to load canvas viewport position:" ;;
       ret VNull).

(** ** saveCurrentPosition *)

(** The object literal [position] built from the live canvas. *)
Definition canvas_position (c : canvas) : value :=
  VObject [("tx", VNumber (canvas_tx c));
           ("ty", VNumber (canvas_ty c));
           ("tZoom", match canvas_tZoom c with
                     | Some z => VNumber z
                     | None => VUndefined
                     end)].

(** The guard [!view?.file || !view?.canvas] can only fire on the canvas:
    a [CanvasView] has a file. *)
Definition saveCurrentPosition (view : CanvasView) : M unit :=
  match view_canvas view with
  | None => ret tt
  | Some c =>
      try_catch
        (content <- vault_read (view_file view) ;;
         canvasData <- parse content ;;
         viewports <- lift (get_prop canvasData "viewports") ;;
         canvasData <- (if negb (truthy viewports)
                        then lift (set_prop canvasData "viewports" (VObject []))
                        else ret canvasData) ;;
         position <- gets (fun s => canvas_position (canvases s c)) ;;
         viewportKey <- getViewportKey ;;
         canvasData <- lift (mutate_prop canvasData "viewports"
                               (fun viewports => set_prop viewports viewportKey position)) ;;
         vault_modify (view_file view) (JSON_stringify canvasData) ;;
         Notice "Canvas viewport position saved")
        (fun error =>
           console_error "Failed to save canvas viewport position:" ;;
           Notice "Failed to save viewport position")
  end.

(** ** deleteSavedPosition *)

(** The guard [!view?.file] never fires on a [CanvasView].  The [return
    false] inside [try] leaves the method before anything is written. *)
Definition deleteSavedPosition (view : CanvasView) : M bool :=
  try_catch
    (content <- vault_read (view_file view) ;;
     canvasData <- parse content ;;
     viewportKey <- getViewportKey ;;
     viewports <- lift (get_prop canvasData "viewports") ;;
     entry <- lift (get_prop_opt viewports viewportKey) ;;
     if negb (truthy entry) then ret false
     else
       canvasData <- lift (mutate_prop canvasData "viewports"
                             (fun viewports => delete_prop viewports viewportKey)) ;;
       viewports <- lift (get_prop canvasData "viewports") ;;
       n <- lift (keys_length viewports) ;;
       canvasData <- (if Nat.eqb n 0
                      then lift (delete_prop canvasData "viewports")
                      else ret canvasData) ;;
       vault_modify (view_file view) (JSON_stringify canvasData) ;;
       ret true)
    (fun error =>
       console_error "Failed to delete canvas viewport position:" ;;
       ret false).

(** ** restoreViewport *)

(** The part of [restoreViewport] after the 100 ms timer: it looks at the
    workspace as it is then.  The subtraction [position.tZoom - currentZoom]
    converts [position.tZoom] with ToNumber ([currentZoom] is a number
    already); it stands before the [try], so a TypeError of the conversion
    leaves [restoreViewport] uncaught and nothing is queued. *)
Definition restoreViewport_apply (position : value) : M unit :=
  canvasLeaves <- getLeavesOfType_canvas ;;
  match canvasLeaves with
  | [] => ret tt
  | canvasView :: _ =>
      match view_canvas canvasView with
      | None => ret tt
      | Some c =>
          obj <- gets (fun s => canvases s c) ;;
          match canvas_tZoom obj with
          | None => ret tt
          | Some currentZoom =>
              target <- lift (get_prop position "tZoom") ;;
              target <- lift (ToNumber target) ;;
              let zoomDelta := (target - currentZoom)%float in
              try_catch
                (requestAnimationFrame (ApplyViewport c zoomDelta position))
                (fun error =>
                   console_error "Failed to restore viewport:" ;;
                   Notice "Failed to restore viewport")
          end
      end
  end.

(** [restoreViewport] with nothing else running during the timer.  The
    first step records the call in the ghost trace. *)
Definition restoreViewport (file : TFile) : M unit :=
  modify_state (fun s => with_restorations (restorations s ++ [file]) s) ;;
  position <- loadSavedPosition file ;;
  if negb (truthy position) then Notice "No saved viewport position found"
  else restoreViewport_apply position.

(** The callback queued by [restoreViewport], run by the host at the
    next paint, outside any frame of the plugin. *)
Definition frame_callback (task : frame_task) : M unit :=
  match task with
  | ApplyViewport c zoomDelta position =>
      canvas_call c (zoomBy zoomDelta) ;;
      x <- lift (get_prop position "tx") ;;
      y <- lift (get_prop position "ty") ;;
      canvas_call c (panTo x y) ;;
      canvas_call c markViewportChanged ;;
      canvas_call c requestFrame ;;
      Notice "Canvas viewport restored"
  end.

(** The host runs the oldest pending animation-frame callback.  A [Throw]
    here is an uncaught exception in the host's event loop. *)
Definition run_animation_frame : M unit :=
  pending <- gets frames ;;
  match pending with
  | [] => ret tt
  | task :: rest =>
      modify_state (with_frames rest) ;;
      frame_callback task
  end.

(** ** The file-open handler registered in onload

    [file] is [None] for a null file.  [wasAlreadyOpen] is computed from
    the remembered list before the list is replaced. *)

Definition on_file_open (file : option TFile) : M unit :=
  remembered <- gets openCanvasFiles ;;
  let wasAlreadyOpen :=
    match file with
    | Some f => String.eqb (extension f) "canvas" && includes remembered (path f)
    | None => false
    end in
  canvasLeaves <- getLeavesOfType_canvas ;;
  modify_state (with_openCanvasFiles (map (fun leaf => path (view_file leaf)) canvasLeaves)) ;;
  match file with
  | None => ret tt
  | Some f =>
      if negb (String.eqb (extension f) "canvas") || wasAlreadyOpen then ret tt
      else restoreViewport f
  end.

(** ** onunload *)

Definition onunload : M unit := modify_state (with_openCanvasFiles []).

End Methods.

(* ================================================================== *)
(** * Documents *)
(* ================================================================== *)

(** The own named properties of a parsed document (or of its [viewports]
    value): the fields of an object, the named properties of an array. *)
Definition named_props (v : value) : list (string * value) :=
  match v with
  | VObject fields => fields
  | VArray _ props => props
  | _ => []
  end.

(** The value of the top-level [viewports] field, when the field is there. *)
Definition viewports_field (doc : value) : option value :=
  assoc_get "viewports" (named_props doc).

(** The entries of the [viewports] mapping ([[]] when there is none). *)
Definition viewport_entries (doc : value) : list (string * value) :=
  match viewports_field doc with
  | Some v => named_props v
  | None => []
  end.

(** [viewports[K]], when both the mapping and the entry are there. *)
Definition viewport_entry (doc : value) (K : string) : option value :=
  assoc_get K (viewport_entries doc).

Definition is_number (v : option value) : bool :=
  match v with
  | Some (VNumber _) => true
  | _ => false
  end.

(** A stored viewport record: an object with exactly the three number
    fields [tx], [ty], [tZoom]. *)
Definition is_record (v : value) : bool :=
  match v with
  | VObject fields =>
      Nat.eqb (length fields) 3
      && is_number (assoc_get "tx" fields)
      && is_number (assoc_get "ty" fields)
      && is_number (assoc_get "tZoom" fields)
  | _ => false
  end.

(** A well-formed canvas document: a JSON object whose [viewports] field,
    when present, is an object (the mapping from viewport keys to what is
    stored for them). *)
Definition well_formed (doc : value) : bool :=
  match doc with
  | VObject fields =>
      match assoc_get "viewports" fields with
      | None | Some (VObject _) => true
      | Some _ => false
      end
  | _ => false
  end.

(** The document carries a [viewports] field that is an empty mapping. *)
Definition has_empty_viewports (doc : value) : bool :=
  match viewports_field doc with
  | Some (VObject []) => true
  | _ => false
  end.

(** ** What the store hands to JSON.stringify *)

(** The statements of [saveCurrentPosition] between [JSON.parse] and
    [JSON.stringify], as a function of the parsed document
    ([saveCurrentPosition_run] relates it to the method). *)
Definition saved_document (canvasData : value) (viewportKey : string) (position : value)
  : result value :=
  match get_prop canvasData "viewports" with
  | Throw e => Throw e
  | Ok viewports =>
      match (if negb (truthy viewports)
             then set_prop canvasData "viewports" (VObject [])
             else Ok canvasData) with
      | Throw e => Throw e
      | Ok canvasData1 =>
          mutate_prop canvasData1 "viewports"
            (fun viewports => set_prop viewports viewportKey position)
      end
  end.

(** The statements of [deleteSavedPosition] between [JSON.parse] and
    [JSON.stringify]: [Ok None] when it returns [false] without writing
    ([deleteSavedPosition_run] relates it to the method). *)
Definition deleted_document (canvasData : value) (viewportKey : string)
  : result (option value) :=
  match get_prop canvasData "viewports" with
  | Throw e => Throw e
  | Ok viewports =>
      match get_prop_opt viewports viewportKey with
      | Throw e => Throw e
      | Ok entry =>
          if negb (truthy entry) then Ok None
          else
            match mutate_prop canvasData "viewports"
                    (fun viewports => delete_prop viewports viewportKey) with
            | Throw e => Throw e
            | Ok canvasData1 =>
                match get_prop canvasData1 "viewports" with
                | Throw e => Throw e
                | Ok viewports1 =>
                    match keys_length viewports1 with
                    | Throw e => Throw e
                    | Ok n =>
                        match (if Nat.eqb n 0
                               then delete_prop canvasData1 "viewports"
                               else Ok canvasData1) with
                        | Throw e => Throw e
                        | Ok canvasData2 => Ok (Some canvasData2)
                        end
                    end
                end
            end
      end
  end.

(** What [loadSavedPosition] returns for a parsed document:
    [canvasData.viewports?.[viewportKey] || null]. *)
Definition loaded (doc : value) (K : string) : value :=
  match viewport_entry doc K with
  | Some x => if truthy x then x else VNull
  | None => VNull
  end.

(** [doc'] differs from [doc] at most in the entry [viewports[K]] (and in
    the presence of the [viewports] field itself). *)
Definition same_elsewhere (K : string) (doc doc' : value) : Prop :=
  others "viewports" (named_props doc') = others "viewports" (named_props doc)
  /\ others K (viewport_entries doc') = others K (viewport_entries doc).

Section Statements.
Context {RT : Runtime} {CH : CanvasHost}.

(** The runtime parses the text it serialized [doc] to back to [doc]. *)
Definition reads_back (doc : value) : Prop :=
  JSON_parse (JSON_stringify doc) = Some doc.

(** The paths of the canvas views open in [s]. *)
Definition current_paths (s : state) : list string :=
  map (fun leaf => path (view_file leaf)) (leaves s).

(** The activation of [file] is a genuine first open with respect to the
    remembered open set. *)
Definition genuine_open (file : option TFile) (remembered : list string) : Prop :=
  exists f, file = Some f /\ extension f = "canvas" /\ ~ In (path f) remembered.

(** [restoreViewport] was entered once more in [s'] than in [s]. *)
Definition restoration_triggered (s s' : state) : Prop :=
  exists f, restorations s' = restorations s ++ [f].

(** The vault of [s] with the content of [file] replaced by [data]. *)
Definition written (file : TFile) (data : string) (s : state) : list (string * string) :=
  assoc_set (path file) data (vault s).
End Statements.

(* ================================================================== *)
(** * Commands, settings and the single-viewport store *)
(* ================================================================== *)

Section Commands.
Context {RT : Runtime} {CH : CanvasHost}.

(** A call to an async method whose promise is not awaited: the caller
    goes on whatever the outcome. *)
Definition fire_and_forget {A} (m : M A) : M unit :=
  fun s => (Ok tt, snd (m s)).

(** The [checkCallback] of the command [save-canvas-viewport]. *)
Definition save_command (checking : bool) : M bool :=
  canvasLeaves <- getLeavesOfType_canvas ;;
  match canvasLeaves with
  | [] =>
      (if negb checking then Notice "Please open a canvas first" else ret tt) ;;
      ret false
  | canvasView :: _ =>
      (if negb checking then fire_and_forget (saveCurrentPosition canvasView)
       else ret tt) ;;
      ret true
  end.

(** The [checkCallback] of the command [restore-canvas-viewport]. *)
Definition restore_command (checking : bool) : M bool :=
  canvasLeaves <- getLeavesOfType_canvas ;;
  match canvasLeaves with
  | [] =>
      (if negb checking then Notice "Please open a canvas first" else ret tt) ;;
      ret false
  | canvasView :: _ =>
      (if negb checking then fire_and_forget (restoreViewport (view_file canvasView))
       else ret tt) ;;
      ret true
  end.

(** The [checkCallback] of the command [delete-canvas-viewport], with the
    continuation passed to [then]. *)
Definition delete_command (checking : bool) : M bool :=
  canvasLeaves <- getLeavesOfType_canvas ;;
  match canvasLeaves with
  | [] =>
      (if negb checking then Notice "Please open a canvas first" else ret tt) ;;
      ret false
  | canvasView :: _ =>
      (if negb checking then
         fire_and_forget
           (deleted <- deleteSavedPosition canvasView ;;
            if deleted : bool then
              viewportKey <- getViewportKey ;;
              Notice ("Canvas viewport position deleted for " ++ viewportKey)%string
            else Notice "No saved viewport position found")
       else ret tt) ;;
      ret true
  end.

(** ** loadSettings *)

Definition with_settings (c : CanvasViewportSettings) (s : state) : state :=
  mkState (openCanvasFiles s) (currentDevice s) c (vault s) (leaves s) (canvases s)
          (notices s) (console_errors s) (frames s) (restorations s).

(** The plugin reads its two settings in boolean positions only
    ([if (this.settings.debugMode)], [useGlobalViewport ? ... : ...]):
    the state keeps their truth values. *)
Definition settings_of (obj : value) : CanvasViewportSettings :=
  {| debugMode :=
       match assoc_get "debugMode" (named_props obj) with
       | Some v => truthy v
       | None => false
       end;
     useGlobalViewport :=
       match assoc_get "useGlobalViewport" (named_props obj) with
       | Some v => truthy v
       | None => false
       end |}.

Definition settings_object (c : CanvasViewportSettings) : value :=
  VObject [("debugMode", VBool (debugMode c));
           ("useGlobalViewport", VBool (useGlobalViewport c))].

(** The key of the array index [n]. *)
Definition index_key (n : nat) : string :=
  NilZero.string_of_uint (Nat.to_uint n).

(** The own enumerable properties Object.assign copies from [v]: the
    fields of an object; the elements of an array under their indices,
    then its named properties; the characters of a string under their
    indices; none for the other values. *)
Definition own_enumerable (v : value) : list (string * value) :=
  match v with
  | VObject fields => fields
  | VArray elems props =>
      combine (map index_key (seq 0 (length elems))) elems ++ props
  | VString str =>
      let chars := map (fun c => VString (String c EmptyString)) (list_ascii_of_string str) in
      combine (map index_key (seq 0 (length chars))) chars
  | VUndefined | VNull | VBool _ | VNumber _ => []
  end.

(** [Object.assign(target, ...sources)] on the properties of [target]. *)
Definition Object_assign (target : list (string * value)) (sources : list value)
  : list (string * value) :=
  fold_left
    (fun props source =>
       fold_left (fun props kv => assoc_set (fst kv) (snd kv) props)
                 (own_enumerable source) props)
    sources target.

(** [loadSettings]; [data] is what [this.loadData()] resolved to ([null]
    when nothing is stored). *)
Definition loadSettings (data : value) : M unit :=
  modify_state
    (with_settings
       (settings_of (VObject (Object_assign [] [settings_object DEFAULT_SETTINGS; data])))).
End Commands.

(** ** The single-viewport store

    The first class of [src/main.ts] keeps one viewport per canvas file,
    in the top-level field [viewport]. *)
Module Legacy.
Section Store.
Context {RT : Runtime} {CH : CanvasHost}.

Definition loadSavedPosition (file : TFile) : M value :=
  try_catch
    (content <- vault_read file ;;
     canvasData <- parse content ;;
     viewport <- lift (get_prop canvasData "viewport") ;;
     ret (if truthy viewport then viewport else VNull))
    (fun error =>
       console_error "Failed to load canvas viewport position:" ;;
       ret VNull).

Definition saveCurrentPosition (view : CanvasView) : M unit :=
  match view_canvas view with
  | None => ret tt
  | Some c =>
      try_catch
        (content <- vault_read (view_file view) ;;
         canvasData <- parse content ;;
         position <- gets (fun s => canvas_position (canvases s c)) ;;
         canvasData <- lift (set_prop canvasData "viewport" position) ;;
         vault_modify (view_file view) (JSON_stringify canvasData) ;;
         Notice "Canvas viewport position saved")
        (fun error =>
           console_error "Failed to save canvas viewport position:" ;;
           Notice "Failed to save viewport position")
  end.

Definition deleteSavedPosition (view : CanvasView) : M bool :=
  try_catch
    (content <- vault_read (view_file view) ;;
     canvasData <- parse content ;;
     viewport <- lift (get_prop canvasData "viewport") ;;
     if negb (truthy viewport) then ret false
     else
       canvasData <- lift (delete_prop canvasData "viewport") ;;
       vault_modify (view_file view) (JSON_stringify canvasData) ;;
       ret true)
    (fun error =>
       console_error "Failed to delete canvas viewport position:" ;;
       ret false).
End Store.
End Legacy.

(** ** Notions used to state further properties *)

(** The string holds an [@]. *)
Definition has_at (str : string) : bool :=
  existsb (Ascii.eqb "@") (list_ascii_of_string str).

(** [v.k] for a value [v] that is neither [null] nor [undefined]. *)
Definition field_of (position : value) (k : string) : value :=
  match assoc_get k (named_props position) with
  | Some x => x
  | None => VUndefined
  end.

(** What the single-viewport load returns for a parsed document:
    [canvasData.viewport || null]. *)
Definition legacy_loaded (doc : value) : value :=
  match get_prop doc "viewport" with
  | Ok viewport => if truthy viewport then viewport else VNull
  | Throw _ => VNull
  end.

Section FurtherNotions.
Context {RT : Runtime} {CH : CanvasHost}.

(** The canvas store with the object at [c] replaced. *)
Definition canvas_replaced (c : canvas_ref) (obj : canvas) (s : state)
  : canvas_ref -> canvas :=
  fun r => if Nat.eqb r c then obj else canvases s r.

(** [doc'] is a document that [saveCurrentPosition] or
    [deleteSavedPosition], called on [view] in [s], serializes in place of
    [doc]. *)
Definition store_writes (view : CanvasView) (s : state) (doc doc' : value) : Prop :=
  (exists c,
      view_canvas view = Some c
      /\ saved_document doc (viewport_key s) (canvas_position (canvases s c)) = Ok doc')
  \/ deleted_document doc (viewport_key s) = Ok (Some doc').
End FurtherNotions.

(* ================================================================== *)
(** * A reference runtime *)
(* ================================================================== *)

(** A JSON printer and parser to run the methods on concrete canvas files.
    The printer follows [JSON.stringify(v, null, 2)]: two-space
    indentation, [undefined] members dropped, [undefined] elements and
    non-finite numbers printed as [null], the named properties of an array
    ignored.  A number is printed as its exact decimal expansion, which is
    the text JavaScript prints whenever that expansion is short (10, 1.5,
    0.25); in a string only the quote and the backslash are escaped.  The
    parser covers objects, arrays, strings whose only escapes are those
    two, the three literals, and decimal numbers without exponent of at
    most 15 digits; any other text is a SyntaxError. *)
Module Reference.
Local Open Scope string_scope.

Definition dquote : ascii := "034"%char.
Definition backslash : ascii := "092"%char.
Definition newline : string := String "010"%char "".

(** ** Printing *)

Fixpoint escape (s : string) : string :=
  match s with
  | EmptyString => EmptyString
  | String c s' =>
      if Ascii.eqb c dquote || Ascii.eqb c backslash
      then String backslash (String c (escape s'))
      else String c (escape s')
  end.

Definition print_string (s : string) : string :=
  String dquote (escape s ++ String dquote "").

Fixpoint zeros (n : nat) : string :=
  match n with
  | 0 => ""
  | S n' => String "0" (zeros n')
  end.

(** [s] without its trailing zeros. *)
Fixpoint trim_zeros (s : string) : string :=
  match s with
  | EmptyString => EmptyString
  | String c s' =>
      match trim_zeros s' with
      | EmptyString => if Ascii.eqb c "0" then EmptyString else String c EmptyString
      | t => String c t
      end
  end.

(** The decimal text of [n / 10^k]. *)
Definition print_decimal (n : N) (k : nat) : string :=
  let digits := NilZero.string_of_uint (N.to_uint n) in
  let padded := zeros (S k - String.length digits) ++ digits in
  let int_len := String.length padded - k in
  let int_part := substring 0 int_len padded in
  let frac_part := trim_zeros (substring int_len k padded) in
  match frac_part with
  | EmptyString => int_part
  | _ => int_part ++ "." ++ frac_part
  end.

Definition print_number (x : float) : string :=
  match Prim2SF x with
  | S754_zero _ => "0"
  | S754_finite sign m e =>
      (if sign then "-" else "")
      ++ match e with
         | Zneg p => print_decimal (Npos m * 5 ^ Npos p) (Pos.to_nat p)
         | _ => print_decimal (Npos m * 2 ^ Z.to_N e) 0
         end
  | S754_infinity _ | S754_nan => "null"
  end.

Fixpoint join (sep : string) (l : list string) : string :=
  match l with
  | [] => ""
  | [x] => x
  | x :: l' => x ++ sep ++ join sep l'
  end.

(** [None] for a value JSON.stringify leaves out ([undefined]). *)
Fixpoint print (indent : string) (v : value) {struct v} : option string :=
  let inner := indent ++ "  " in
  let block (opening closing : string) (items : list string) : string :=
    match items with
    | [] => opening ++ closing
    | _ => opening ++ newline ++ inner
           ++ join ("," ++ newline ++ inner) items
           ++ newline ++ indent ++ closing
    end in
  match v with
  | VUndefined => None
  | VNull => Some "null"
  | VBool b => Some (if b then "true" else "false")
  | VNumber n => Some (print_number n)
  | VString s => Some (print_string s)
  | VArray elems _ =>
      let fix items (l : list value) : list string :=
        match l with
        | [] => []
        | e :: l' =>
            match print inner e with
            | Some t => t
            | None => "null"
            end :: items l'
        end in
      Some (block "[" "]" (items elems))
  | VObject fields =>
      let fix members (l : list (string * value)) : list string :=
        match l with
        | [] => []
        | (k, x) :: l' =>
            match print inner x with
            | Some t => (print_string k ++ ": " ++ t) :: members l'
            | None => members l'
            end
        end in
      Some (block "{" "}" (members fields))
  end.

Definition stringify (v : value) : string :=
  match print "" v with
  | Some t => t
  | None => "undefined"
  end.

(** ** Parsing *)

Definition is_space (c : ascii) : bool :=
  Ascii.eqb c " " || Ascii.eqb c "010" || Ascii.eqb c "013" || Ascii.eqb c "009".

Definition is_digit (c : ascii) : bool :=
  let n := nat_of_ascii c in Nat.leb 48 n && Nat.leb n 57.

Fixpoint skip_space (s : string) : string :=
  match s with
  | String c s' => if is_space c then skip_space s' else s
  | EmptyString => s
  end.

(** The digits at the head of [s], as a number, their count, and the rest. *)
Fixpoint take_digits (acc : N) (count : nat) (s : string) : N * nat * string :=
  match s with
  | String c s' =>
      if is_digit c
      then take_digits (10 * acc + N.of_nat (nat_of_ascii c - 48)) (S count) s'
      else (acc, count, s)
  | EmptyString => (acc, count, s)
  end.

Definition float_of_N (n : N) : float :=
  match n with
  | N0 => 0%float
  | Npos p => SF2Prim (S754_finite false p 0)
  end.

Definition parse_number (s : string) : option (float * string) :=
  let '(negative, s1) :=
    match s with
    | String "-" s' => (true, s')
    | _ => (false, s)
    end in
  let '(int_part, int_count, s2) := take_digits 0%N 0 s1 in
  let '(all, frac_count, s3) :=
    match s2 with
    | String "." s' =>
        let '(all, total, rest) := take_digits int_part int_count s' in
        (all, total - int_count, rest)
    | _ => (int_part, 0, s2)
    end in
  let unsupported :=
    match s3 with
    | String c _ => Ascii.eqb c "e" || Ascii.eqb c "E"
    | EmptyString => false
    end in
  if Nat.eqb int_count 0 || Nat.ltb 15 (int_count + frac_count) || unsupported
  then None
  else
    let magnitude := (float_of_N all / float_of_N (10 ^ N.of_nat frac_count))%float in
    Some (if negative then (- magnitude)%float else magnitude, s3).

(** The characters of a string literal up to its closing quote. *)
Fixpoint parse_chars (s : string) : option (string * string) :=
  match s with
  | EmptyString => None
  | String c s' =>
      if Ascii.eqb c dquote then Some (EmptyString, s')
      else if Ascii.eqb c backslash then
        match s' with
        | String c' s'' =>
            if Ascii.eqb c' dquote || Ascii.eqb c' backslash then
              match parse_chars s'' with
              | Some (t, rest) => Some (String c' t, rest)
              | None => None
              end
            else None
        | EmptyString => None
        end
      else
        match parse_chars s' with
        | Some (t, rest) => Some (String c t, rest)
        | None => None
        end
  end.

Definition parse_literal (word : string) (v : value) (s : string) : option (value * string) :=
  if String.prefix word s
  then Some (v, substring (String.length word) (String.length s - String.length word) s)
  else None.

Fixpoint parse_value (fuel : nat) (s : string) : option (value * string) :=
  match fuel with
  | 0 => None
  | S fuel' =>
      match skip_space s with
      | EmptyString => None
      | String c s' as s0 =>
          if Ascii.eqb c "{" then
            match skip_space s' with
            | String "}" rest => Some (VObject [], rest)
            | s1 => parse_members fuel' [] s1
            end
          else if Ascii.eqb c "[" then
            match skip_space s' with
            | String "]" rest => Some (VArray [] [], rest)
            | s1 => parse_elements fuel' [] s1
            end
          else if Ascii.eqb c dquote then
            match parse_chars s' with
            | Some (t, rest) => Some (VString t, rest)
            | None => None
            end
          else if Ascii.eqb c "t" then parse_literal "true" (VBool true) s0
          else if Ascii.eqb c "f" then parse_literal "false" (VBool false) s0
          else if Ascii.eqb c "n" then parse_literal "null" VNull s0
          else
            match parse_number s0 with
            | Some (n, rest) => Some (VNumber n, rest)
            | None => None
            end
      end
  end

with parse_members (fuel : nat) (acc : list (string * value)) (s : string)
  : option (value * string) :=
  match fuel with
  | 0 => None
  | S fuel' =>
      match skip_space s with
      | String c s' =>
          if Ascii.eqb c dquote then
            match parse_chars s' with
            | Some (k, s1) =>
                match skip_space s1 with
                | String ":" s2 =>
                    match parse_value fuel' s2 with
                    | Some (x, s3) =>
                        let acc' := assoc_set k x acc in
                        match skip_space s3 with
                        | String "," s4 => parse_members fuel' acc' s4
                        | String "}" rest => Some (VObject acc', rest)
                        | _ => None
                        end
                    | None => None
                    end
                | _ => None
                end
            | None => None
            end
          else None
      | EmptyString => None
      end
  end

with parse_elements (fuel : nat) (acc : list value) (s : string)
  : option (value * string) :=
  match fuel with
  | 0 => None
  | S fuel' =>
      match parse_value fuel' s with
      | Some (x, s1) =>
          match skip_space s1 with
          | String "," s2 => parse_elements fuel' (acc ++ [x])%list s2
          | String "]" rest => Some (VArray (acc ++ [x])%list [], rest)
          | _ => None
          end
      | None => None
      end
  end.

Definition parse_text (text : string) : option value :=
  match parse_value (S (String.length text)) text with
  | Some (v, rest) =>
      match skip_space rest with
      | EmptyString => Some v
      | _ => None
      end
  | None => None
  end.

(** ToNumber on a plain object as [JSON.parse] builds it.  With hint
    number the conversion tries [valueOf], then [toString], and calls the
    one it finds callable.  The inherited [valueOf] returns the object
    itself, which is no primitive, and an own [valueOf] read from JSON is
    not callable, so [toString] decides: an own [toString] read from JSON
    is not callable and the conversion is a TypeError; the inherited one
    gives the text [[object Object]], which is not a number.  ToNumber on
    strings and arrays is not exercised by the runs below; this runtime
    answers NaN there. *)
Definition to_number_object (v : value) : result float :=
  match v with
  | VObject fields =>
      match assoc_get "toString" fields with
      | Some _ => Throw (TypeError "Cannot convert object to primitive value")
      | None => Ok PrimFloat.nan
      end
  | _ => Ok PrimFloat.nan
  end.

Definition runtime : Runtime := {|
  JSON_parse := parse_text;
  JSON_stringify := stringify;
  StringToNumber := fun _ => PrimFloat.nan;
  ToNumber_object := to_number_object
|}.


(** ** A live canvas *)

Record live_canvas : Type := {
  live_tx : float;
  live_ty : float;
  live_tZoom : option float;
  viewportChanged : bool;
  frame_requested : bool
}.

(** A host whose canvas has the four methods [restoreViewport] calls. *)
Definition host : CanvasHost := {|
  canvas := live_canvas;
  canvas_tx := live_tx;
  canvas_ty := live_ty;
  canvas_tZoom := live_tZoom;
  zoomBy := fun delta c =>
    Ok {| live_tx := live_tx c; live_ty := live_ty c;
          live_tZoom := match live_tZoom c with
                        | Some z => Some (z + delta)%float
                        | None => None
                        end;
          viewportChanged := viewportChanged c;
          frame_requested := frame_requested c |};
  panTo := fun x y c =>
    match ToNumber (RT := runtime) x, ToNumber (RT := runtime) y with
    | Ok x, Ok y =>
        Ok {| live_tx := x; live_ty := y;
              live_tZoom := live_tZoom c;
              viewportChanged := viewportChanged c;
              frame_requested := frame_requested c |}
    | Throw e, _ | Ok _, Throw e => Throw e
    end;
  markViewportChanged := fun c =>
    Ok {| live_tx := live_tx c; live_ty := live_ty c; live_tZoom := live_tZoom c;
          viewportChanged := true; frame_requested := frame_requested c |};
  requestFrame := fun c =>
    Ok {| live_tx := live_tx c; live_ty := live_ty c; live_tZoom := live_tZoom c;
          viewportChanged := viewportChanged c; frame_requested := true |}
|}.

(** A host build whose canvas has no [zoomBy]: the call through
    [(canvas as any)] is a TypeError. *)
Definition host_without_zoomBy : CanvasHost := {|
  canvas := live_canvas;
  canvas_tx := live_tx;
  canvas_ty := live_ty;
  canvas_tZoom := live_tZoom;
  zoomBy := fun _ _ => Throw (TypeError "canvas.zoomBy is not a function");
  panTo := @panTo host;
  markViewportChanged := @markViewportChanged host;
  requestFrame := @requestFrame host
|}.

(** ** A workspace with one open canvas, [Board.canvas] *)

Definition board : TFile := {| path := "Board.canvas"; extension := "canvas" |}.

Definition board_view : CanvasView := {| view_canvas := Some 0; view_file := board |}.

Definition board_camera : CameraPosition := {| tx := 10; ty := 20; tZoom := 1.5 |}.

Definition board_canvas : live_canvas := {|
  live_tx := 10; live_ty := 20; live_tZoom := Some 1.5%float;
  viewportChanged := false; frame_requested := false
|}.

(** The identifier of a desktop Mac with a 1920x1080 screen at ratio 2. *)
Definition desktop_mac : string :=
  Eval cbv in
    getDeviceIdentifier
      {| isMacOS := true; isWin := false; isLinux := false; isMobile := false;
         isPhone := false; isTablet := false; isIosApp := false;
         isAndroidApp := false; isDesktopApp := true |}
      "1920" "1080" "2".

(** The session state in which [Board.canvas] has the content [text]. *)
Definition session (CH : CanvasHost) (obj : @canvas CH) (text : string) : @state CH := {|
  openCanvasFiles := [];
  currentDevice := desktop_mac;
  settings := DEFAULT_SETTINGS;
  vault := [("Board.canvas", text)];
  leaves := [board_view];
  canvases := fun _ => obj;
  notices := [];
  console_errors := [];
  frames := [];
  restorations := []
|}.

(** A canvas at zoom 1, not yet moved. *)
Definition fresh_canvas : live_canvas := {|
  live_tx := 0; live_ty := 0; live_tZoom := Some 1%float;
  viewportChanged := false; frame_requested := false
|}.

(** A canvas the host has not initialized yet: [tZoom] is undefined. *)
Definition uninitialized_canvas : live_canvas := {|
  live_tx := 0; live_ty := 0; live_tZoom := None;
  viewportChanged := false; frame_requested := false
|}.

(** A canvas whose horizontal pan is not a finite number. *)
Definition unbounded_canvas : live_canvas := {|
  live_tx := PrimFloat.nan; live_ty := 20; live_tZoom := Some 1.5%float;
  viewportChanged := false; frame_requested := false
|}.

(** A canvas file without saved viewports. *)
Definition empty_board : value :=
  VObject [("nodes", VArray [] []); ("edges", VArray [] [])].

(** A canvas file with the viewport of this device saved. *)
Definition saved_board : value :=
  VObject [("nodes", VArray [] []); ("edges", VArray [] []);
           ("viewports",
            VObject [(desktop_mac, position_value board_camera)])].

(** A canvas file whose [viewports] field is an array, not a mapping. *)
Definition array_board : value :=
  VObject [("nodes", VArray [] []); ("viewports", VArray [] [])].

(** A canvas file whose entry for this device is the number [0]. *)
Definition zero_board : value :=
  VObject [("nodes", VArray [] []);
           ("viewports", VObject [(desktop_mac, VNumber 0)])].

(** The session in which [Board.canvas] holds the text of [doc]. *)
Definition with_board (CH : CanvasHost) (obj : @canvas CH) (doc : value) : @state CH :=
  session CH obj (stringify doc).

Definition A_canvas : TFile := {| path := "A.canvas"; extension := "canvas" |}.
Definition B_canvas : TFile := {| path := "B.canvas"; extension := "canvas" |}.
Definition notes_md : TFile := {| path := "Notes.md"; extension := "md" |}.

(** A session that remembers [A.canvas] as open. *)
Definition remembering_A : @state host :=
  with_openCanvasFiles ["A.canvas"] (with_board host fresh_canvas empty_board).

(** ** More sessions *)

Definition desktop_platform : Platform :=
  {| isMacOS := true; isWin := false; isLinux := false; isMobile := false;
     isPhone := false; isTablet := false; isIosApp := false;
     isAndroidApp := false; isDesktopApp := true |}.

(** The identifier of an iPad with a 1024x1366 screen at ratio 2. *)
Definition tablet : string :=
  Eval cbv in
    getDeviceIdentifier
      {| isMacOS := false; isWin := false; isLinux := false; isMobile := true;
         isPhone := false; isTablet := true; isIosApp := true;
         isAndroidApp := false; isDesktopApp := false |}
      "1024" "1366" "2".

(** The session [s] as the device [device] has it. *)
Definition on_device (device : string) (s : @state host) : @state host :=
  mkState (openCanvasFiles s) device (settings s) (vault s) (leaves s) (canvases s)
          (notices s) (console_errors s) (frames s) (restorations s).

(** The session [s] with [useGlobalViewport] switched on. *)
Definition globally (s : @state host) : @state host :=
  with_settings {| debugMode := false; useGlobalViewport := true |} s.

(** The session [s] with every canvas leaf closed. *)
Definition closed_workspace (s : @state host) : @state host :=
  mkState (openCanvasFiles s) (currentDevice s) (settings s) (vault s) [] (canvases s)
          (notices s) (console_errors s) (frames s) (restorations s).

(** [Board.canvas] with the camera of [fresh_canvas] saved for this device. *)
Definition moved_board : value :=
  VObject [("nodes", VArray [] []); ("edges", VArray [] []);
           ("viewports",
            VObject [(desktop_mac,
                      VObject [("tx", VNumber 0); ("ty", VNumber 0);
                               ("tZoom", VNumber 1)])])].

(** [Board.canvas] with the camera of [board_canvas] saved for all devices. *)
Definition global_board : value :=
  VObject [("nodes", VArray [] []); ("edges", VArray [] []);
           ("viewports", VObject [("global", position_value board_camera)])].

(** [Board.canvas] as the single-viewport store saves it. *)
Definition single_board : value :=
  VObject [("nodes", VArray [] []); ("edges", VArray [] []);
           ("viewport", position_value board_camera)].

(** [Board.canvas] with a hand-edited entry for this device: its [tZoom]
    is an object with own [valueOf] and [toString] that are numbers, which
    ToNumber cannot convert. *)
Definition unconvertible_board : value :=
  VObject [("nodes", VArray [] []); ("edges", VArray [] []);
           ("viewports",
            VObject [(desktop_mac,
                      VObject [("tx", VNumber 10); ("ty", VNumber 20);
                               ("tZoom",
                                VObject [("valueOf", VNumber 0);
                                         ("toString", VNumber 0)])])])].

(** A host build whose canvas has [zoomBy] but no [panTo]. *)
Definition host_without_panTo : CanvasHost := {|
  canvas := live_canvas;
  canvas_tx := live_tx;
  canvas_ty := live_ty;
  canvas_tZoom := live_tZoom;
  zoomBy := @zoomBy host;
  panTo := fun _ _ _ => Throw (TypeError "canvas.panTo is not a function");
  markViewportChanged := @markViewportChanged host;
  requestFrame := @requestFrame host
|}.

End Reference.

(* ================================================================== *)
(** * Own-property lemmas *)
(* ================================================================== *)

(** Every device identifier ends in [_<w>x<h>@<ratio>x]: it holds an [@]
    and so is none of the names a built-in prototype defines. *)
Lemma getDeviceIdentifier_shape P width height pixelRatio :
  exists deviceType,
    getDeviceIdentifier P width height pixelRatio
    = (deviceType ++ "_" ++ (width ++ "x" ++ height) ++ "@" ++ pixelRatio ++ "x")%string.
Proof. unfold getDeviceIdentifier. eexists. reflexivity. Qed.

Section AssocFacts.
Variable A : Type.
Implicit Types (k : string) (l : list (string * A)).

Lemma assoc_get_set_same k x l : assoc_get k (assoc_set k x l) = Some x.
Proof.
  induction l as [|[k' y] l IH]; simpl.
  - now rewrite String.eqb_refl.
  - destruct (String.eqb k k') eqn:E; simpl.
    + now rewrite String.eqb_refl.
    + now rewrite E.
Qed.

Lemma assoc_get_set_other k k' x l :
  k' <> k -> assoc_get k' (assoc_set k x l) = assoc_get k' l.
Proof.
  intros Hne. apply String.eqb_neq in Hne.
  induction l as [|[k0 y] l IH]; simpl.
  - now rewrite Hne.
  - destruct (String.eqb k k0) eqn:E; simpl.
    + apply String.eqb_eq in E. subst k0. now rewrite Hne.
    + now rewrite IH.
Qed.

Lemma others_set k x l : others k (assoc_set k x l) = others k l.
Proof.
  unfold others, assoc_remove.
  induction l as [|[k' y] l IH]; simpl.
  - now rewrite String.eqb_refl.
  - destruct (String.eqb k k') eqn:E; simpl.
    + now rewrite String.eqb_refl.
    + now rewrite ?E, IH.
Qed.

Lemma assoc_get_remove_same k l : assoc_get k (assoc_remove k l) = None.
Proof.
  unfold assoc_remove.
  induction l as [|[k' y] l IH]; simpl; trivial.
  destruct (String.eqb k k') eqn:E; simpl; trivial.
  now rewrite E.
Qed.

Lemma assoc_get_remove_other k k' l :
  k' <> k -> assoc_get k' (assoc_remove k l) = assoc_get k' l.
Proof.
  intros Hne. apply String.eqb_neq in Hne. unfold assoc_remove.
  induction l as [|[k0 y] l IH]; simpl; trivial.
  destruct (String.eqb k k0) eqn:E; simpl.
  - apply String.eqb_eq in E. subst k0. now rewrite Hne.
  - now rewrite IH.
Qed.

Lemma others_remove k l : others k (assoc_remove k l) = others k l.
Proof.
  unfold others, assoc_remove.
  induction l as [|[k' y] l IH]; simpl; trivial.
  destruct (String.eqb k k') eqn:E; simpl; trivial.
  now rewrite E, IH.
Qed.



Lemma assoc_get_others k k' l :
  k' <> k -> assoc_get k' (others k l) = assoc_get k' l.
Proof. apply assoc_get_remove_other. Qed.

Lemma assoc_remove_single k (x : A) : assoc_remove k [(k, x)] = [].
Proof. unfold assoc_remove. simpl. now rewrite String.eqb_refl. Qed.


Lemma assoc_get_In k l x : assoc_get k l = Some x -> In (k, x) l.
Proof.
  induction l as [|[k' y] l IH]; simpl; [discriminate|].
  destruct (String.eqb k k') eqn:E.
  - apply String.eqb_eq in E. intros [= ->]. subst. now left.
  - intros H. right. now apply IH.
Qed.
End AssocFacts.

(* ================================================================== *)
(** * Running the methods *)
(* ================================================================== *)

Ltac unfold_m :=
  unfold try_catch, bind, ret, throw, lift, gets, modify_state in *.

Section MethodRuns.
Context {RT : Runtime} {CH : CanvasHost}.

(** [v?.[k]] never throws. *)
Lemma get_prop_opt_ok v k : exists x, get_prop_opt v k = Ok x.
Proof. destruct v; simpl; eauto. Qed.

(** Reading [doc.viewports?.[K]] yields the entry, or [undefined]. *)
Lemma entry_read doc K viewports :
  get_prop doc "viewports" = Ok viewports ->
  get_prop_opt viewports K
  = Ok match viewport_entry doc K with Some x => x | None => VUndefined end.
Proof.
  unfold viewport_entry, viewport_entries, viewports_field.
  destruct doc; simpl; try discriminate; intros [= <-]; simpl; trivial;
    match goal with
    | |- context [assoc_get "viewports" ?l] =>
        destruct (assoc_get "viewports" l) as [[]|]; simpl; trivial
    end.
Qed.

Lemma entry_read_throw doc K e :
  get_prop doc "viewports" = Throw e -> viewport_entry doc K = None.
Proof. destruct doc; simpl; try discriminate; trivial. Qed.

Lemma loadSavedPosition_run file s text doc :
  content_of s file = Some text ->
  JSON_parse text = Some doc ->
  fst (loadSavedPosition file s) = Ok (loaded doc (viewport_key s)).
Proof.
  intros Hread Hparse.
  unfold loadSavedPosition, vault_read, parse, getViewportKey, console_error, loaded.
  unfold_m. rewrite Hread, Hparse.
  destruct (get_prop doc "viewports") as [viewports|e] eqn:Hv.
  - rewrite (entry_read _ (viewport_key s) Hv).
    destruct (viewport_entry doc _); reflexivity.
  - rewrite (entry_read_throw _ (viewport_key s) Hv). reflexivity.
Qed.

(** Without a readable, parseable document the result is [null]. *)
Lemma loadSavedPosition_unreadable file s :
  content_of s file = None -> fst (loadSavedPosition file s) = Ok VNull.
Proof.
  intros Hread. unfold loadSavedPosition, vault_read. unfold_m.
  now rewrite Hread.
Qed.

Lemma loadSavedPosition_malformed file s text :
  content_of s file = Some text -> JSON_parse text = None ->
  fst (loadSavedPosition file s) = Ok VNull.
Proof.
  intros Hread Hparse. unfold loadSavedPosition, vault_read, parse. unfold_m.
  now rewrite Hread, Hparse.
Qed.

(** [loadSavedPosition] always returns, and touches only the console. *)
Lemma loadSavedPosition_total file s :
  exists v, fst (loadSavedPosition file s) = Ok v.
Proof.
  destruct (content_of s file) as [text|] eqn:Hread.
  - destruct (JSON_parse text) as [doc|] eqn:Hparse.
    + eexists. eapply loadSavedPosition_run; eauto.
    + eexists. eapply loadSavedPosition_malformed; eauto.
  - eexists. now apply loadSavedPosition_unreadable.
Qed.

Lemma loadSavedPosition_state file s :
  let s' := snd (loadSavedPosition file s) in
  s' = s \/ s' = with_console_errors
                   (console_errors s ++ ["Failed to load canvas viewport position:"]) s.
Proof.
  unfold loadSavedPosition, vault_read, parse, getViewportKey, console_error.
  unfold_m. simpl.
  destruct (content_of s file) as [text|]; [|now right].
  destruct (JSON_parse text) as [doc|]; simpl; [|now right].
  destruct (get_prop doc "viewports") as [viewports|e]; simpl; [|now right].
  destruct (get_prop_opt_ok viewports (viewport_key s)) as [x ->].
  now left.
Qed.

(** [saveCurrentPosition] on a readable, parseable document: it writes
    the serialization of [saved_document], or reports the failure. *)
Lemma saveCurrentPosition_run view c s text doc :
  view_canvas view = Some c ->
  content_of s (view_file view) = Some text ->
  JSON_parse text = Some doc ->
  saveCurrentPosition view s =
  match saved_document doc (viewport_key s) (canvas_position (canvases s c)) with
  | Ok doc' =>
      (Ok tt,
       with_notices (notices s ++ ["Canvas viewport position saved"])
         (with_vault (written (view_file view) (JSON_stringify doc') s) s))
  | Throw e =>
      (Ok tt,
       with_notices (notices s ++ ["Failed to save viewport position"])
         (with_console_errors
            (console_errors s ++ ["Failed to save canvas viewport position:"]) s))
  end.
Proof.
  intros Hc Hread Hparse.
  unfold saveCurrentPosition, saved_document. rewrite Hc.
  unfold vault_read, vault_modify, parse, getViewportKey, Notice, console_error.
  unfold_m. rewrite Hread, Hparse.
  destruct (get_prop doc "viewports") as [viewports|e]; [|reflexivity].
  destruct (negb (truthy viewports)).
  - destruct (set_prop doc "viewports" (VObject [])) as [doc1|e]; [|reflexivity].
    destruct (mutate_prop doc1 _ _); simpl; [rewrite Hread|]; reflexivity.
  - destruct (mutate_prop doc _ _); simpl; [rewrite Hread|]; reflexivity.
Qed.

(** [deleteSavedPosition] on a readable, parseable document. *)
Lemma deleteSavedPosition_run view s text doc :
  content_of s (view_file view) = Some text ->
  JSON_parse text = Some doc ->
  deleteSavedPosition view s =
  match deleted_document doc (viewport_key s) with
  | Ok None => (Ok false, s)
  | Ok (Some doc') =>
      (Ok true, with_vault (written (view_file view) (JSON_stringify doc') s) s)
  | Throw e =>
      (Ok false,
       with_console_errors
         (console_errors s ++ ["Failed to delete canvas viewport position:"]) s)
  end.
Proof.
  intros Hread Hparse.
  unfold deleteSavedPosition, deleted_document.
  unfold vault_read, vault_modify, parse, getViewportKey, console_error.
  unfold_m. rewrite Hread, Hparse.
  destruct (get_prop doc "viewports") as [viewports|e]; [|reflexivity].
  destruct (get_prop_opt viewports (viewport_key s)) as [entry|e]; [|reflexivity].
  destruct (negb (truthy entry)); [reflexivity|].
  destruct (mutate_prop doc _ _) as [doc1|e]; [|reflexivity].
  destruct (get_prop doc1 "viewports") as [viewports1|e]; [|reflexivity].
  destruct (keys_length viewports1) as [n|e]; [|reflexivity].
  destruct (Nat.eqb n 0).
  - destruct (delete_prop doc1 "viewports"); simpl; [rewrite Hread|]; reflexivity.
  - simpl. rewrite Hread. reflexivity.
Qed.

(** Without a readable, parseable document nothing is written. *)
Lemma deleteSavedPosition_no_document view s :
  (content_of s (view_file view) = None
   \/ exists text, content_of s (view_file view) = Some text
                   /\ JSON_parse text = None) ->
  fst (deleteSavedPosition view s) = Ok false
  /\ vault (snd (deleteSavedPosition view s)) = vault s.
Proof.
  unfold deleteSavedPosition, vault_read, parse, console_error. unfold_m.
  intros [Hread | (text & Hread & Hparse)]; rewrite Hread; try rewrite Hparse;
    simpl; auto.
Qed.
End MethodRuns.

(* ================================================================== *)
(** * The document written by save and delete *)
(* ================================================================== *)

Section PropertyFacts.

Lemma get_prop_props v k x :
  get_prop v k = Ok x ->
  x = match assoc_get k (named_props v) with Some y => y | None => VUndefined end.
Proof. destruct v; simpl; congruence. Qed.

Lemma set_prop_props v k x v' :
  set_prop v k x = Ok v' ->
  named_props v' = assoc_set k x (named_props v) /\ truthy v' = true.
Proof. destruct v; simpl; try discriminate; intros [= <-]; auto. Qed.

Lemma delete_prop_props v k v' :
  delete_prop v k = Ok v' -> named_props v' = assoc_remove k (named_props v).
Proof. destruct v; simpl; try discriminate; intros [= <-]; auto. Qed.

Lemma falsy_no_props v : truthy v = false -> named_props v = [].
Proof. destruct v; simpl; trivial; discriminate. Qed.

Lemma keys_length_zero v : keys_length v = Ok 0 -> named_props v = [].
Proof.
  destruct v; simpl; trivial; intros [= H].
  - destruct props; trivial. rewrite Nat.add_comm in H. discriminate.
  - now destruct fields.
Qed.

Lemma mutate_prop_props obj k update obj' :
  mutate_prop obj k update = Ok obj' ->
  exists inner inner',
    get_prop obj k = Ok inner /\ update inner = Ok inner'
    /\ named_props obj' = assoc_set k inner' (named_props obj).
Proof.
  unfold mutate_prop.
  destruct (get_prop obj k) as [inner|] eqn:Hg; [|discriminate].
  destruct (update inner) as [inner'|] eqn:Hu; [|discriminate].
  intros Hs. exists inner, inner'. repeat split; trivial.
  now apply set_prop_props in Hs.
Qed.

(** After a successful [saveCurrentPosition] step the document holds the
    old entries with [K] set to [position], and the same other fields. *)
Lemma saved_document_props doc K position doc' :
  saved_document doc K position = Ok doc' ->
  others "viewports" (named_props doc') = others "viewports" (named_props doc)
  /\ exists viewports',
       viewports_field doc' = Some viewports'
       /\ truthy viewports' = true
       /\ named_props viewports' = assoc_set K position (viewport_entries doc).
Proof.
  unfold saved_document.
  destruct (get_prop doc "viewports") as [viewports|] eqn:Hg; [|discriminate].
  apply get_prop_props in Hg.
  destruct (truthy viewports) eqn:Ht; simpl.
  - intros Hm. apply mutate_prop_props in Hm as (inner & inner' & Hi & Hu & Hp).
    apply get_prop_props in Hi. apply set_prop_props in Hu as [Hu Hu'].
    unfold viewports_field, viewport_entries, viewports_field.
    rewrite Hp, others_set, assoc_get_set_same. split; trivial.
    exists inner'. split; [trivial|]. split; [trivial|]. rewrite Hu. f_equal.
    destruct (assoc_get "viewports" (named_props doc)); subst; trivial.
  - destruct (set_prop doc "viewports" (VObject [])) as [doc1|] eqn:Hs; [|discriminate].
    apply set_prop_props in Hs as [Hs _].
    intros Hm. apply mutate_prop_props in Hm as (inner & inner' & Hi & Hu & Hp).
    apply get_prop_props in Hi. rewrite Hs, assoc_get_set_same in Hi. subst inner.
    apply set_prop_props in Hu as [Hu Hu'].
    unfold viewports_field, viewport_entries, viewports_field.
    rewrite Hp, Hs, !others_set, assoc_get_set_same. split; trivial.
    exists inner'. split; [trivial|]. split; [trivial|]. rewrite Hu. simpl.
    destruct (assoc_get "viewports" (named_props doc)) as [v|]; subst; simpl;
      [now rewrite (falsy_no_props _ Ht)|trivial].
Qed.

Lemma saved_document_entries doc K position doc' :
  saved_document doc K position = Ok doc' ->
  viewport_entries doc' = assoc_set K position (viewport_entries doc).
Proof.
  intros H. apply saved_document_props in H as (_ & v & Hv & _ & Hp).
  unfold viewport_entries at 1. now rewrite Hv.
Qed.

(** On a well-formed document the save step succeeds. *)
Lemma saved_document_well_formed doc K position :
  well_formed doc = true -> exists doc', saved_document doc K position = Ok doc'.
Proof.
  destruct doc as [| | | | | |fields]; try discriminate. simpl.
  unfold saved_document, mutate_prop. simpl.
  destruct (assoc_get "viewports" fields) as [[| | | | | |entries]|] eqn:Hv;
    try discriminate; intros _; simpl.
  - rewrite Hv. simpl. eauto.
  - rewrite assoc_get_set_same. simpl. eauto.
Qed.

(** After a successful [deleteSavedPosition] step that writes, the entry
    [K] was there and truthy, the document holds the old entries without
    [K], the same other fields, and no empty [viewports]. *)
Lemma deleted_document_props doc K doc' :
  deleted_document doc K = Ok (Some doc') ->
  others "viewports" (named_props doc') = others "viewports" (named_props doc)
  /\ viewport_entries doc' = assoc_remove K (viewport_entries doc)
  /\ (exists x, viewport_entry doc K = Some x /\ truthy x = true)
  /\ has_empty_viewports doc' = false
  /\ (forall entries,
        viewports_field doc = Some (VObject entries) ->
        assoc_remove K entries = [] -> viewports_field doc' = None).
Proof.
  unfold deleted_document.
  destruct (get_prop doc "viewports") as [viewports|] eqn:Hg; [|discriminate].
  rewrite (entry_read _ K Hg). apply get_prop_props in Hg.
  destruct (viewport_entry doc K) as [x|] eqn:Hx; simpl; [|discriminate].
  destruct (truthy x) eqn:Ht; simpl; [|discriminate].
  destruct (mutate_prop doc _ _) as [doc1|] eqn:Hm; [|discriminate].
  apply mutate_prop_props in Hm as (inner & inner' & Hi & Hu & Hp).
  apply get_prop_props in Hi. pose proof Hu as Hdel. apply delete_prop_props in Hu.
  assert (Hentries : named_props inner = viewport_entries doc).
  { unfold viewport_entries, viewports_field. subst inner.
    destruct (assoc_get "viewports" (named_props doc)); trivial. }
  destruct (get_prop doc1 "viewports") as [viewports1|] eqn:Hg1; [|discriminate].
  apply get_prop_props in Hg1. rewrite Hp, assoc_get_set_same in Hg1. subst viewports1.
  destruct (keys_length inner') as [n|] eqn:Hn; [|discriminate].
  destruct n as [|n]; simpl.
  - destruct (delete_prop doc1 "viewports") as [doc2|] eqn:Hd; [|discriminate].
    intros [= <-]. apply delete_prop_props in Hd.
    apply keys_length_zero in Hn.
    assert (Hf : viewports_field doc2 = None).
    { unfold viewports_field. rewrite Hd. apply assoc_get_remove_same. }
    assert (He : viewport_entries doc2 = []).
    { unfold viewport_entries. now rewrite Hf. }
    rewrite He. repeat split; eauto.
    + rewrite Hd. fold (others "viewports" (named_props doc1)).
      now rewrite others_remove, Hp, others_set.
    + now rewrite <- Hentries, <- Hu, Hn.
    + unfold has_empty_viewports. now rewrite Hf.
  - intros [= <-].
    assert (Hf : viewports_field doc1 = Some inner').
    { unfold viewports_field. rewrite Hp. apply assoc_get_set_same. }
    assert (He : viewport_entries doc1 = assoc_remove K (viewport_entries doc)).
    { unfold viewport_entries at 1. now rewrite Hf, Hu, Hentries. }
    repeat split; eauto.
    + now rewrite Hp, others_set.
    + unfold has_empty_viewports. rewrite Hf.
      destruct inner'; trivial. destruct fields; trivial. discriminate.
    + intros entries Hv Hempty. exfalso.
      unfold viewports_field in Hv. rewrite Hv in Hi. subst inner.
      simpl in Hdel. injection Hdel as <-. rewrite Hempty in Hn. discriminate.
Qed.

(** The delete step returns without writing exactly when the entry is
    absent or falsy (and the document is not [null]). *)
Lemma deleted_document_absent doc K :
  viewport_entry doc K = None ->
  deleted_document doc K = Ok None \/ exists e, deleted_document doc K = Throw e.
Proof.
  intros Hx. unfold deleted_document.
  destruct (get_prop doc "viewports") as [viewports|] eqn:Hg; [|eauto].
  rewrite (entry_read _ K Hg), Hx. simpl. auto.
Qed.
End PropertyFacts.

(* ================================================================== *)
(** * The Open-Event Classifier *)
(* ================================================================== *)

Section Classifier.
Context {RT : Runtime} {CH : CanvasHost}.

Lemma with_frames_same (s : state) : with_frames (frames s) s = s.
Proof. now destruct s. Qed.

(** After the timer, [restoreViewport] at most queues one animation
    frame, whether it returns or throws. *)
Lemma restoreViewport_apply_run position s :
  truthy position = true ->
  exists r pending, restoreViewport_apply position s = (r, with_frames pending s).
Proof.
  intros Ht. unfold restoreViewport_apply, getLeavesOfType_canvas, requestAnimationFrame.
  unfold_m.
  destruct (leaves s) as [|canvasView rest];
    [exists (Ok tt), (frames s); now rewrite with_frames_same|].
  destruct (view_canvas canvasView) as [c|];
    [|exists (Ok tt), (frames s); now rewrite with_frames_same].
  destruct (canvas_tZoom (canvases s c)) as [currentZoom|];
    [|exists (Ok tt), (frames s); now rewrite with_frames_same].
  assert (Hg : exists target, get_prop position "tZoom" = Ok target)
    by (destruct position; simpl in *; try discriminate; eauto).
  destruct Hg as [target ->]. simpl.
  destruct (ToNumber target) as [n|e]; simpl.
  - eauto.
  - exists (Throw e), (frames s). now rewrite with_frames_same.
Qed.

(** Whether it returns or throws, [restoreViewport] changes only the
    notices, the console, the pending frames and the ghost trace. *)
Lemma restoreViewport_frame file s :
  let s' := snd (restoreViewport file s) in
  openCanvasFiles s' = openCanvasFiles s
  /\ currentDevice s' = currentDevice s
  /\ settings s' = settings s
  /\ vault s' = vault s
  /\ leaves s' = leaves s
  /\ canvases s' = canvases s
  /\ restorations s' = restorations s ++ [file].
Proof.
  unfold restoreViewport. unfold_m. simpl.
  set (s1 := with_restorations (restorations s ++ [file]) s).
  destruct (loadSavedPosition_total file s1) as [position Hv].
  pose proof (loadSavedPosition_state file s1) as Hs. simpl in Hs.
  destruct (loadSavedPosition file s1) as [r s2]. simpl in Hv, Hs. subst r.
  destruct (truthy position) eqn:Ht; simpl.
  - destruct (restoreViewport_apply_run position s2 Ht) as (r & pending & ->). simpl.
    destruct Hs as [-> | ->]; simpl; repeat split; reflexivity.
  - unfold Notice. unfold_m. simpl.
    destruct Hs as [-> | ->]; simpl; repeat split; reflexivity.
Qed.

Lemma includes_In l x : includes l x = true <-> In x l.
Proof.
  unfold includes. rewrite existsb_exists. split.
  - intros (y & Hy & E). apply String.eqb_eq in E. now subst.
  - intros H. exists x. split; trivial. apply String.eqb_refl.
Qed.

Lemma append_one_neq (A : Type) (l : list A) (x : A) : l <> l ++ [x].
Proof.
  intros H. apply (f_equal (@length A)) in H.
  rewrite length_app in H. simpl in H. lia.
Qed.
End Classifier.

Section ClassifierClaims.
Context {RT : Runtime} {CH : CanvasHost}.

Lemma genuine_open_dec file remembered :
  genuine_open file remembered
  \/ (file = None
      \/ exists f, file = Some f
                   /\ (extension f <> "canvas" \/ In (path f) remembered)).
Proof.
  destruct file as [f|]; [|now right; left].
  destruct (String.eqb (extension f) "canvas") eqn:E.
  - apply String.eqb_eq in E.
    destruct (includes remembered (path f)) eqn:I.
    + apply includes_In in I. right; right. exists f. auto.
    + left. exists f. repeat split; trivial.
      intros H. apply includes_In in H. congruence.
  - apply String.eqb_neq in E. right; right. exists f. auto.
Qed.

(** The handler on a genuine first open. *)
Lemma on_file_open_genuine f s :
  extension f = "canvas" -> ~ In (path f) (openCanvasFiles s) ->
  on_file_open (Some f) s = restoreViewport f (with_openCanvasFiles (current_paths s) s).
Proof.
  intros E H. unfold on_file_open, getLeavesOfType_canvas. unfold_m.
  rewrite E. simpl.
  destruct (includes (openCanvasFiles s) (path f)) eqn:I; [|reflexivity].
  apply includes_In in I. contradiction.
Qed.

(** The handler on any other activation. *)
Lemma on_file_open_spurious file s :
  ~ genuine_open file (openCanvasFiles s) ->
  on_file_open file s = (Ok tt, with_openCanvasFiles (current_paths s) s).
Proof.
  intros H. unfold on_file_open, getLeavesOfType_canvas. unfold_m.
  destruct file as [f|]; [|reflexivity].
  destruct (String.eqb (extension f) "canvas") eqn:E; [|reflexivity].
  destruct (includes (openCanvasFiles s) (path f)) eqn:I; [reflexivity|].
  exfalso. apply H. exists f. apply String.eqb_eq in E. repeat split; trivial.
  intros Hin. apply includes_In in Hin. congruence.
Qed.

(** C1.  An activation delivered to the file-open handler triggers viewport
    restoration if and only if the file is present, its extension is
    ["canvas"] and its path is not in the remembered open set; then the
    handler runs [restoreViewport] on that file.  Any other activation
    (null file, other extension, path already remembered) restores
    nothing: it only replaces the remembered set. *)
Theorem restoration_iff_genuine_open (file : option TFile) (s : state) :
  let s' := snd (on_file_open file s) in
  (restoration_triggered s s' <-> genuine_open file (openCanvasFiles s))
  /\ (forall f, file = Some f -> genuine_open file (openCanvasFiles s) ->
      on_file_open file s
      = restoreViewport f (with_openCanvasFiles (current_paths s) s))
  /\ (~ genuine_open file (openCanvasFiles s) ->
      on_file_open file s = (Ok tt, with_openCanvasFiles (current_paths s) s)).
Proof.
  simpl. split; [|split].
  - split.
    + intros [f Hf].
      destruct (genuine_open_dec file (openCanvasFiles s)) as [G | N]; trivial.
      exfalso. rewrite on_file_open_spurious in Hf.
      * simpl in Hf. now apply append_one_neq in Hf.
      * intros (g & -> & E & Hin).
        destruct N as [N | (g' & [= <-] & [N | N])]; [discriminate| |]; contradiction.
    + intros (f & -> & E & Hin). exists f.
      rewrite on_file_open_genuine by trivial.
      now destruct (restoreViewport_frame f (with_openCanvasFiles (current_paths s) s))
        as (_ & _ & _ & _ & _ & _ & ->).
  - intros f -> (g & [= <-] & E & Hin). now apply on_file_open_genuine.
  - apply on_file_open_spurious.
Qed.

(** C8.  After every invocation of the file-open handler, whatever the
    file (null, not a canvas, remembered or not), the remembered open set
    is the set of paths of the canvas views open at the invocation; the
    open views themselves are untouched, and whether restoration is
    triggered depends on the set remembered before the replacement. *)
Theorem open_set_is_replaced (file : option TFile) (s : state) :
  let s' := snd (on_file_open file s) in
  openCanvasFiles s' = current_paths s
  /\ leaves s' = leaves s
  /\ (restoration_triggered s s'
      <-> exists f, file = Some f /\ extension f = "canvas"
                    /\ includes (openCanvasFiles s) (path f) = false).
Proof.
  simpl.
  destruct (genuine_open_dec file (openCanvasFiles s)) as [G | N].
  - destruct G as (f & -> & E & Hin).
    rewrite on_file_open_genuine by trivial.
    destruct (restoreViewport_frame f (with_openCanvasFiles (current_paths s) s))
      as (Ho & _ & _ & _ & Hl & _ & Hr).
    repeat split; trivial.
    + intros _. exists f. repeat split; trivial.
      destruct (includes (openCanvasFiles s) (path f)) eqn:I; trivial.
      apply includes_In in I. contradiction.
    + intros _. exists f. exact Hr.
  - assert (NG : ~ genuine_open file (openCanvasFiles s)).
    { intros (g & -> & E & Hin).
      destruct N as [N | (g' & [= <-] & [N | N])]; [discriminate| |]; contradiction. }
    rewrite on_file_open_spurious by trivial. simpl. repeat split; trivial.
    + intros [f Hf]. simpl in Hf. now apply append_one_neq in Hf.
    + intros (f & -> & E & I). exfalso. apply NG. exists f. repeat split; trivial.
      intros Hin. apply includes_In in Hin. congruence.
Qed.
End ClassifierClaims.

(* ================================================================== *)
(** * The Viewport Store *)
(* ================================================================== *)

Section StoreFacts.
Context {RT : Runtime} {CH : CanvasHost}.

Lemma content_of_written file data s :
  content_of (with_vault (written file data s) s) file = Some data.
Proof. unfold content_of, written. simpl. apply assoc_get_set_same. Qed.

(** A stored record is truthy. *)
Lemma is_record_truthy v : is_record v = true -> truthy v = true.
Proof. destruct v; simpl; trivial; discriminate. Qed.

(** The delete step writes whenever the entry is there and truthy. *)
Lemma deleted_document_present doc K x :
  viewport_entry doc K = Some x -> truthy x = true ->
  exists doc', deleted_document doc K = Ok (Some doc').
Proof.
  unfold viewport_entry, viewport_entries, viewports_field, deleted_document, mutate_prop.
  intros Hx Ht.
  destruct doc as [| | | | |elems props|fields]; simpl in *; try discriminate.
  - destruct (assoc_get "viewports" props) as [v|] eqn:Hv; [|discriminate].
    destruct v as [| | | | |elems' props'|fields']; simpl in *; try discriminate;
      rewrite Hx, Ht; simpl; rewrite assoc_get_set_same; simpl;
      match goal with |- context [Nat.eqb ?n 0] => destruct (Nat.eqb n 0) end; eauto.
  - destruct (assoc_get "viewports" fields) as [v|] eqn:Hv; [|discriminate].
    destruct v as [| | | | |elems' props'|fields']; simpl in *; try discriminate;
      rewrite Hx, Ht; simpl; rewrite assoc_get_set_same; simpl;
      match goal with |- context [Nat.eqb ?n 0] => destruct (Nat.eqb n 0) end; eauto.
Qed.

(** A lookup outside [K] is a lookup in [others K]. *)
Lemma same_elsewhere_entry K doc doc' K' :
  same_elsewhere K doc doc' -> K' <> K ->
  viewport_entry doc' K' = viewport_entry doc K'.
Proof.
  intros [_ H] Hne. unfold viewport_entry.
  rewrite <- (assoc_get_others (viewport_entries doc') Hne), H.
  now apply assoc_get_others.
Qed.

Lemma same_elsewhere_field K doc doc' k :
  same_elsewhere K doc doc' -> k <> "viewports" ->
  assoc_get k (named_props doc') = assoc_get k (named_props doc).
Proof.
  intros [H _] Hne.
  rewrite <- (assoc_get_others (named_props doc') Hne), H.
  now apply assoc_get_others.
Qed.

Lemma saved_document_same_elsewhere doc K position doc' :
  saved_document doc K position = Ok doc' -> same_elsewhere K doc doc'.
Proof.
  intros H. split.
  - now apply saved_document_props in H as [H _].
  - rewrite (saved_document_entries _ _ _ H). apply others_set.
Qed.

Lemma deleted_document_same_elsewhere doc K doc' :
  deleted_document doc K = Ok (Some doc') -> same_elsewhere K doc doc'.
Proof.
  intros H. apply deleted_document_props in H as (H1 & H2 & _). split; trivial.
  rewrite H2. apply others_remove.
Qed.

Lemma saved_document_no_empty doc K position doc' :
  saved_document doc K position = Ok doc' -> has_empty_viewports doc' = false.
Proof.
  intros H. apply saved_document_props in H as (_ & v & Hv & _ & Hp).
  unfold has_empty_viewports. rewrite Hv.
  destruct v as [| | | | | |fields]; trivial. destruct fields; trivial.
  simpl in Hp. symmetry in Hp. destruct (viewport_entries doc) as [|[k y] l]; simpl in Hp;
    [discriminate|]. destruct (String.eqb K k); discriminate.
Qed.
End StoreFacts.

Section StoreClaims.
Context {RT : Runtime} {CH : CanvasHost}.

(** C2.  Save-then-load round trip.  For a canvas file whose text parses
    to a well-formed document, a live canvas whose camera is the record
    [R], and the current viewport key: when the runtime parses the text
    [saveCurrentPosition] wrote back to the document it serialized,
    [loadSavedPosition] under the same key returns exactly [R]. *)
Theorem save_then_load_round_trip
    (view : CanvasView) (c : canvas_ref) (s : state) (text : string) (doc : value)
    (R : CameraPosition) :
  view_canvas view = Some c ->
  content_of s (view_file view) = Some text ->
  JSON_parse text = Some doc ->
  well_formed doc = true ->
  canvas_position (canvases s c) = position_value R ->
  (forall doc', saved_document doc (viewport_key s) (position_value R) = Ok doc' ->
                reads_back doc') ->
  fst (loadSavedPosition (view_file view) (snd (saveCurrentPosition view s)))
  = Ok (position_value R).
Proof.
  intros Hc Hread Hparse Hwf Hpos Hback.
  rewrite (saveCurrentPosition_run _ _ Hc Hread Hparse), Hpos.
  destruct (saved_document_well_formed doc (viewport_key s) (position_value R) Hwf)
    as [doc' Hsave].
  rewrite Hsave. simpl.
  set (s' := with_notices _ _).
  assert (Hread' : content_of s' (view_file view) = Some (JSON_stringify doc'))
    by apply content_of_written.
  rewrite (loadSavedPosition_run _ _ Hread' (Hback _ Hsave)).
  unfold loaded, viewport_entry.
  change (viewport_key s') with (viewport_key s).
  now rewrite (saved_document_entries _ _ _ Hsave), assoc_get_set_same.
Qed.

(** C3.  Absence invariant.  No document written by [saveCurrentPosition]
    or [deleteSavedPosition] carries an empty [viewports] mapping; and
    when the [viewports] mapping of a well-formed document holds exactly
    the one key [K] (with its viewport record), deleting [K] writes a
    document in which the [viewports] field is absent. *)
Theorem viewports_absent_when_empty
    (view : CanvasView) (s : state) (text : string) (doc : value) :
  content_of s (view_file view) = Some text ->
  JSON_parse text = Some doc ->
  (forall c doc',
      view_canvas view = Some c ->
      saved_document doc (viewport_key s) (canvas_position (canvases s c)) = Ok doc' ->
      vault (snd (saveCurrentPosition view s))
      = written (view_file view) (JSON_stringify doc') s
      /\ has_empty_viewports doc' = false)
  /\ (forall doc',
      deleted_document doc (viewport_key s) = Ok (Some doc') ->
      vault (snd (deleteSavedPosition view s))
      = written (view_file view) (JSON_stringify doc') s
      /\ has_empty_viewports doc' = false)
  /\ (forall record,
      well_formed doc = true ->
      viewport_entries doc = [(viewport_key s, record)] ->
      is_record record = true ->
      exists doc',
        deleteSavedPosition view s
        = (Ok true, with_vault (written (view_file view) (JSON_stringify doc') s) s)
        /\ viewports_field doc' = None).
Proof.
  intros Hread Hparse. split; [|split].
  - intros c doc' Hc Hsave.
    rewrite (saveCurrentPosition_run _ _ Hc Hread Hparse), Hsave. simpl.
    split; trivial. eapply saved_document_no_empty; eauto.
  - intros doc' Hdel.
    rewrite (deleteSavedPosition_run _ _ Hread Hparse), Hdel. simpl.
    split; trivial. now apply deleted_document_props in Hdel.
  - intros x Hwf He Hrec.
    assert (Hx : viewport_entry doc (viewport_key s) = Some x).
    { unfold viewport_entry. rewrite He. simpl. now rewrite String.eqb_refl. }
    pose proof (is_record_truthy _ Hrec) as Ht.
    destruct (deleted_document_present _ _ Hx Ht) as [doc' Hdel].
    exists doc'. rewrite (deleteSavedPosition_run _ _ Hread Hparse), Hdel.
    split; trivial.
    apply deleted_document_props in Hdel as (_ & _ & _ & _ & Hnone).
    destruct doc as [| | | | | |fields]; try discriminate.
    unfold viewport_entries, viewports_field in He. simpl in *.
    destruct (assoc_get "viewports" fields) as [[| | | | | |entries]|] eqn:Hv;
      try discriminate.
    apply (Hnone entries); trivial. simpl in He. subst entries.
    apply assoc_remove_single.
Qed.

(** C4.  Delete no-op and idempotence.  When [viewports[K]] is absent from
    the parsed document, [deleteSavedPosition] returns [false] and leaves
    the vault as it is.  And deleting twice is deleting once: when the
    runtime parses whatever the first delete wrote back to the document
    it serialized, the second delete returns [false] and leaves the vault
    of the first. *)
Theorem delete_absent_is_noop
    (view : CanvasView) (s : state) (text : string) (doc : value) :
  content_of s (view_file view) = Some text ->
  JSON_parse text = Some doc ->
  let once := deleteSavedPosition view s in
  let twice := deleteSavedPosition view (snd once) in
  (viewport_entry doc (viewport_key s) = None ->
   fst once = Ok false /\ vault (snd once) = vault s)
  /\ ((forall doc', deleted_document doc (viewport_key s) = Ok (Some doc') ->
                    reads_back doc') ->
      fst twice = Ok false /\ vault (snd twice) = vault (snd once)).
Proof.
  intros Hread Hparse. simpl.
  assert (Hnoop : forall s0 text0 doc0,
             content_of s0 (view_file view) = Some text0 ->
             JSON_parse text0 = Some doc0 ->
             viewport_entry doc0 (viewport_key s0) = None ->
             fst (deleteSavedPosition view s0) = Ok false
             /\ vault (snd (deleteSavedPosition view s0)) = vault s0).
  { intros s0 text0 doc0 Hr Hp Habs.
    rewrite (deleteSavedPosition_run _ _ Hr Hp).
    destruct (deleted_document_absent _ _ Habs) as [-> | [e ->]]; auto. }
  split; [now apply (Hnoop s text doc)|].
  intros Hback.
  rewrite (deleteSavedPosition_run _ _ Hread Hparse).
  destruct (deleted_document doc (viewport_key s)) as [[doc'|]|e] eqn:Hdel; simpl.
  - set (s1 := with_vault (written (view_file view) (JSON_stringify doc') s) s).
    refine (Hnoop s1 (JSON_stringify doc') doc' _ _ _).
    + apply content_of_written.
    + now apply Hback.
    + change (viewport_key s1) with (viewport_key s).
      apply deleted_document_props in Hdel as (_ & He & _).
      unfold viewport_entry. rewrite He. apply assoc_get_remove_same.
  - rewrite (deleteSavedPosition_run _ _ Hread Hparse), Hdel. auto.
  - set (s1 := with_console_errors _ s).
    assert (Hread1 : content_of s1 (view_file view) = Some text) by exact Hread.
    rewrite (deleteSavedPosition_run _ _ Hread1 Hparse).
    change (viewport_key s1) with (viewport_key s). rewrite Hdel. auto.
Qed.


(** C6.  Frame condition on writes.  Whatever [saveCurrentPosition] or
    [deleteSavedPosition] writes for the key [K] is the serialization of
    a document with the same top-level fields other than [viewports] and
    the same entries [viewports[K']] for [K' <> K]; when nothing is
    written the vault is unchanged; the other files of the vault are
    never touched.  On a well-formed document save always writes. *)
Theorem writes_leave_the_rest
    (view : CanvasView) (c : canvas_ref) (s : state) (text : string) (doc : value) :
  view_canvas view = Some c ->
  content_of s (view_file view) = Some text ->
  JSON_parse text = Some doc ->
  let K := viewport_key s in
  let after_save := snd (saveCurrentPosition view s) in
  let after_delete := snd (deleteSavedPosition view s) in
  (vault after_save = vault s
   \/ exists doc',
       saved_document doc K (canvas_position (canvases s c)) = Ok doc'
       /\ vault after_save = written (view_file view) (JSON_stringify doc') s
       /\ same_elsewhere K doc doc')
  /\ (vault after_delete = vault s
      \/ exists doc',
          deleted_document doc K = Ok (Some doc')
          /\ vault after_delete = written (view_file view) (JSON_stringify doc') s
          /\ same_elsewhere K doc doc')
  /\ (well_formed doc = true ->
      exists doc',
        saved_document doc K (canvas_position (canvases s c)) = Ok doc'
        /\ vault after_save = written (view_file view) (JSON_stringify doc') s)
  /\ (forall p, p <> path (view_file view) ->
                assoc_get p (vault after_save) = assoc_get p (vault s)
                /\ assoc_get p (vault after_delete) = assoc_get p (vault s)).
Proof.
  intros Hc Hread Hparse. simpl.
  rewrite (saveCurrentPosition_run _ _ Hc Hread Hparse).
  rewrite (deleteSavedPosition_run _ _ Hread Hparse).
  assert (Hother : forall data p, p <> path (view_file view) ->
             assoc_get p (written (view_file view) data s) = assoc_get p (vault s)).
  { intros data p Hp. unfold written. now apply assoc_get_set_other. }
  split; [|split; [|split; [|split]]].
  - destruct (saved_document _ _ _) as [doc'|e] eqn:Hsave; simpl; [right|now left].
    exists doc'. split; [trivial|]. split; [trivial|].
    eapply saved_document_same_elsewhere; eauto.
  - destruct (deleted_document _ _) as [[doc'|]|e] eqn:Hdel; simpl; [right|now left..].
    exists doc'. split; [trivial|]. split; [trivial|].
    now apply deleted_document_same_elsewhere.
  - intros Hwf.
    destruct (saved_document_well_formed doc (viewport_key s)
                (canvas_position (canvases s c)) Hwf) as [doc' ->]. simpl.
    now exists doc'.
  - destruct (saved_document _ _ _); simpl; auto.
  - destruct (deleted_document _ _) as [[doc'|]|e]; simpl; auto.
Qed.
End StoreClaims.

Section LoadClaims.
Context {RT : Runtime} {CH : CanvasHost}.

(** C7.  Load never raises.  For every file and state
    [loadSavedPosition] returns a value, [null] or a truthy stored entry,
    and writes nothing; it returns [null] when the file cannot be read,
    when its text is not valid JSON, and when the [viewports] structure
    or the entry for the key is missing. *)
Theorem load_never_raises (file : TFile) (s : state) :
  (exists v, fst (loadSavedPosition file s) = Ok v /\ (v = VNull \/ truthy v = true))
  /\ vault (snd (loadSavedPosition file s)) = vault s
  /\ (content_of s file = None -> fst (loadSavedPosition file s) = Ok VNull)
  /\ (forall text,
      content_of s file = Some text -> JSON_parse text = None ->
      fst (loadSavedPosition file s) = Ok VNull)
  /\ (forall text doc,
      content_of s file = Some text -> JSON_parse text = Some doc ->
      viewport_entry doc (viewport_key s) = None ->
      fst (loadSavedPosition file s) = Ok VNull).
Proof.
  split; [|split; [|split; [|split]]].
  - destruct (content_of s file) as [text|] eqn:Hread.
    + destruct (JSON_parse text) as [doc|] eqn:Hparse.
      * rewrite (loadSavedPosition_run _ _ Hread Hparse). eexists. split; trivial.
        unfold loaded. destruct (viewport_entry doc _) as [x|]; auto.
        destruct (truthy x) eqn:Ht; auto.
      * rewrite (loadSavedPosition_malformed _ _ Hread Hparse). eauto.
    + rewrite (loadSavedPosition_unreadable _ _ Hread). eauto.
  - destruct (loadSavedPosition_state file s) as [-> | ->]; reflexivity.
  - apply loadSavedPosition_unreadable.
  - intros text. apply loadSavedPosition_malformed.
  - intros text doc Hread Hparse Habs.
    rewrite (loadSavedPosition_run _ _ Hread Hparse). unfold loaded. now rewrite Habs.
Qed.

(** C10.  When the parsed document stores [x] at [viewports[K]],
    [loadSavedPosition] returns [x] itself if [x] is truthy, whatever its
    shape, and [null] if [x] is falsy; in particular for the stored values
    [null], [false], [0] and [""]. *)
Theorem load_returns_truthy_entry_only
    (file : TFile) (s : state) (text : string) (doc x : value) :
  content_of s file = Some text ->
  JSON_parse text = Some doc ->
  viewport_entry doc (viewport_key s) = Some x ->
  fst (loadSavedPosition file s) = Ok (if truthy x then x else VNull)
  /\ (In x [VNull; VBool false; VNumber 0; VString ""] ->
      fst (loadSavedPosition file s) = Ok VNull).
Proof.
  intros Hread Hparse Hx.
  rewrite (loadSavedPosition_run _ _ Hread Hparse). unfold loaded. rewrite Hx.
  split; trivial.
  intros [<- | [<- | [<- | [<- | []]]]]; reflexivity.
Qed.
End LoadClaims.

(* ================================================================== *)
(** * The Camera Applier *)
(* ================================================================== *)

Section Applier.
Context {RT : Runtime} {CH : CanvasHost}.

(** [restoreViewport] never writes the vault and never touches a canvas,
    whether it returns or throws. *)
Lemma restoreViewport_reads file s :
  vault (snd (restoreViewport file s)) = vault s
  /\ canvases (snd (restoreViewport file s)) = canvases s.
Proof.
  destruct (restoreViewport_frame file s) as (_ & _ & _ & Hv & _ & Hc & _). auto.
Qed.

(** The [catch] of [restoreViewport] guards only the call that queues the
    callback, and that call never throws: the handler is never run. *)
Lemma requestAnimationFrame_never_throws task handler s :
  try_catch (requestAnimationFrame task) handler s
  = (Ok tt, with_frames (frames s ++ [task]) s).
Proof. reflexivity. Qed.

(** An exception of [zoomBy] leaves the queued callback as it was thrown:
    uncaught, with no notice and no console line from the plugin. *)
Lemma frame_callback_uncaught c zoomDelta position rest e s :
  frames s = ApplyViewport c zoomDelta position :: rest ->
  zoomBy zoomDelta (canvases s c) = Throw e ->
  run_animation_frame s = (Throw e, with_frames rest s).
Proof.
  intros Hf Hz. unfold run_animation_frame, frame_callback, canvas_call. unfold_m.
  rewrite Hf. simpl. now rewrite Hz.
Qed.
End Applier.

(* ================================================================== *)
(** * More on the Viewport Store *)
(* ================================================================== *)

Section AssocMore.
Variable A : Type.
Implicit Types (k : string) (l : list (string * A)).

Lemma assoc_set_set k x y l : assoc_set k x (assoc_set k y l) = assoc_set k x l.
Proof.
  induction l as [|[k' z] l IH]; simpl.
  - now rewrite String.eqb_refl.
  - destruct (String.eqb k k') eqn:E; simpl.
    + now rewrite String.eqb_refl.
    + now rewrite E, IH.
Qed.

Lemma assoc_set_same_value k x l : assoc_get k l = Some x -> assoc_set k x l = l.
Proof.
  induction l as [|[k' z] l IH]; simpl; [discriminate|].
  destruct (String.eqb k k') eqn:E.
  - apply String.eqb_eq in E. intros [= ->]. now subst.
  - intros H. now rewrite IH.
Qed.

Lemma assoc_remove_absent k l : assoc_get k l = None -> assoc_remove k l = l.
Proof.
  unfold assoc_remove.
  induction l as [|[k' z] l IH]; simpl; trivial.
  destruct (String.eqb k k') eqn:E; [discriminate|].
  intros H. simpl. now rewrite IH.
Qed.

Lemma assoc_remove_set k x l : assoc_remove k (assoc_set k x l) = assoc_remove k l.
Proof. apply others_set. Qed.
End AssocMore.

Section DocumentForms.

(** On a well-formed document the save step sets the entry in place. *)
Lemma saved_document_form fields K position :
  well_formed (VObject fields) = true ->
  saved_document (VObject fields) K position
  = Ok (VObject (assoc_set "viewports"
                   (VObject (assoc_set K position (viewport_entries (VObject fields))))
                   fields)).
Proof.
  unfold well_formed, saved_document, mutate_prop, viewport_entries, viewports_field.
  simpl.
  destruct (assoc_get "viewports" fields) as [[| | | | | |entries]|] eqn:Hv;
    try discriminate; intros _; simpl.
  - now rewrite Hv.
  - rewrite assoc_get_set_same. simpl. now rewrite assoc_set_set.
Qed.

(** On a well-formed document the delete step removes a truthy entry, and
    the mapping with it when it was the last one. *)
Lemma deleted_document_form fields entries K x :
  assoc_get "viewports" fields = Some (VObject entries) ->
  assoc_get K entries = Some x -> truthy x = true ->
  deleted_document (VObject fields) K
  = Ok (Some (match assoc_remove K entries with
              | [] => VObject (assoc_remove "viewports" fields)
              | rest => VObject (assoc_set "viewports" (VObject rest) fields)
              end)).
Proof.
  intros Hv Hx Ht. unfold deleted_document, mutate_prop. simpl.
  rewrite Hv. simpl. rewrite Hx, Ht. simpl.
  rewrite assoc_get_set_same. simpl.
  destruct (assoc_remove K entries) as [|e rest]; simpl.
  - now rewrite assoc_remove_set.
  - reflexivity.
Qed.

Lemma well_formed_set_viewports fields entries :
  well_formed (VObject (assoc_set "viewports" (VObject entries) fields)) = true.
Proof. unfold well_formed. now rewrite assoc_get_set_same. Qed.

Lemma well_formed_remove_viewports fields :
  well_formed (VObject (assoc_remove "viewports" fields)) = true.
Proof. unfold well_formed. now rewrite assoc_get_remove_same. Qed.

(** Both steps keep a well-formed document well-formed. *)
Lemma saved_document_keeps_well_formed doc K position doc' :
  well_formed doc = true -> saved_document doc K position = Ok doc' ->
  well_formed doc' = true.
Proof.
  destruct doc as [| | | | | |fields]; try discriminate.
  intros Hwf. rewrite (saved_document_form _ K position Hwf). intros [= <-].
  apply well_formed_set_viewports.
Qed.

Lemma deleted_document_keeps_well_formed doc K doc' :
  well_formed doc = true -> deleted_document doc K = Ok (Some doc') ->
  well_formed doc' = true.
Proof.
  destruct doc as [| | | | | |fields]; try discriminate.
  intros Hwf Hdel.
  destruct (deleted_document_props _ _ Hdel) as (_ & _ & (x & Hx & Ht) & _).
  unfold viewport_entry, viewport_entries, viewports_field, well_formed in *.
  simpl in *.
  destruct (assoc_get "viewports" fields) as [[| | | | | |entries]|] eqn:Hv;
    try discriminate.
  rewrite (deleted_document_form _ _ Hv Hx Ht) in Hdel. injection Hdel as <-.
  destruct (assoc_remove K entries).
  - apply well_formed_remove_viewports.
  - apply well_formed_set_viewports.
Qed.

(** Saving where there is no entry and deleting it again gives the
    document back. *)
Lemma deleted_saved_document doc K position doc' :
  well_formed doc = true ->
  viewport_entry doc K = None ->
  has_empty_viewports doc = false ->
  truthy position = true ->
  saved_document doc K position = Ok doc' ->
  deleted_document doc' K = Ok (Some doc).
Proof.
  destruct doc as [| | | | | |fields]; try discriminate.
  intros Hwf Habs Hne Ht. rewrite (saved_document_form _ K position Hwf).
  intros [= <-].
  rewrite (@deleted_document_form _ _ K position
             (assoc_get_set_same "viewports" _ fields)
             (assoc_get_set_same K position _) Ht).
  rewrite assoc_remove_set.
  unfold viewport_entry in Habs. rewrite (assoc_remove_absent _ _ Habs).
  unfold has_empty_viewports, viewport_entries, viewports_field, well_formed in *.
  simpl in *.
  destruct (assoc_get "viewports" fields) as [[| | | | | |entries]|] eqn:Hv;
    try discriminate.
  - destruct entries as [|e rest]; [discriminate|]. simpl named_props. cbv iota.
    now rewrite assoc_set_set, (assoc_set_same_value _ _ Hv).
  - now rewrite assoc_remove_set, (assoc_remove_absent _ _ Hv).
Qed.

(** Saving the same position again changes nothing. *)
Lemma saved_document_again doc K position doc' :
  well_formed doc = true ->
  saved_document doc K position = Ok doc' ->
  saved_document doc' K position = Ok doc'.
Proof.
  destruct doc as [| | | | | |fields]; try discriminate.
  intros Hwf. rewrite (saved_document_form _ K position Hwf). intros [= <-].
  rewrite saved_document_form by apply well_formed_set_viewports.
  unfold viewport_entries, viewports_field. simpl.
  rewrite assoc_get_set_same. simpl. now rewrite !assoc_set_set.
Qed.
End DocumentForms.

Section StoreExtras.
Context {RT : Runtime} {CH : CanvasHost}.

(** Loading from a vault in which [file] holds the serialization of a
    document the runtime reads back. *)
Lemma load_written file data_owner doc' (s2 : state) :
  vault s2 = written file (JSON_stringify doc') data_owner ->
  reads_back doc' ->
  fst (loadSavedPosition file s2) = Ok (loaded doc' (viewport_key s2)).
Proof.
  intros Hv Hback.
  apply (loadSavedPosition_run file s2 (text := JSON_stringify doc')); trivial.
  unfold content_of. rewrite Hv. apply assoc_get_set_same.
Qed.

(** Loading depends on the state only through the file's content and the
    viewport key. *)
Lemma load_depends_on_content_and_key file (s1 s2 : state) :
  content_of s1 file = content_of s2 file ->
  viewport_key s1 = viewport_key s2 ->
  fst (loadSavedPosition file s1) = fst (loadSavedPosition file s2).
Proof.
  intros Hc Hk.
  destruct (content_of s2 file) as [text|] eqn:H2.
  - destruct (JSON_parse text) as [doc|] eqn:Hp.
    + rewrite (loadSavedPosition_run _ _ Hc Hp), (loadSavedPosition_run _ _ H2 Hp).
      now rewrite Hk.
    + now rewrite (loadSavedPosition_malformed _ _ Hc Hp),
        (loadSavedPosition_malformed _ _ H2 Hp).
  - now rewrite (loadSavedPosition_unreadable _ _ Hc),
      (loadSavedPosition_unreadable _ _ H2).
Qed.


(** X2.  The store keeps a well-formed document well-formed: whatever
    [saveCurrentPosition] and [deleteSavedPosition] write in place of a
    well-formed document is the serialization of a well-formed document. *)
Theorem store_keeps_documents_well_formed
    (view : CanvasView) (s : state) (text : string) (doc : value) :
  content_of s (view_file view) = Some text ->
  JSON_parse text = Some doc ->
  well_formed doc = true ->
  (forall c, view_canvas view = Some c ->
             exists doc',
               vault (snd (saveCurrentPosition view s))
               = written (view_file view) (JSON_stringify doc') s
               /\ well_formed doc' = true)
  /\ (vault (snd (deleteSavedPosition view s)) = vault s
      \/ exists doc',
          vault (snd (deleteSavedPosition view s))
          = written (view_file view) (JSON_stringify doc') s
          /\ well_formed doc' = true).
Proof.
  intros Hread Hparse Hwf. split.
  - intros c Hc. rewrite (saveCurrentPosition_run _ _ Hc Hread Hparse).
    destruct (saved_document_well_formed doc (viewport_key s)
                (canvas_position (canvases s c)) Hwf) as [doc' Hsave].
    rewrite Hsave. exists doc'. split; trivial.
    eapply saved_document_keeps_well_formed; eauto.
  - rewrite (deleteSavedPosition_run _ _ Hread Hparse).
    destruct (deleted_document doc (viewport_key s)) as [[doc'|]|e] eqn:Hdel;
      simpl; auto.
    right. exists doc'. split; trivial.
    eapply deleted_document_keeps_well_formed; eauto.
Qed.

(** X3.  Saving twice is saving once: with the camera unmoved, a second
    [saveCurrentPosition] writes the text the first one wrote. *)
Theorem save_twice_is_save_once
    (view : CanvasView) (c : canvas_ref) (s : state) (text : string) (doc : value) :
  view_canvas view = Some c ->
  content_of s (view_file view) = Some text ->
  JSON_parse text = Some doc ->
  well_formed doc = true ->
  (forall doc', saved_document doc (viewport_key s) (canvas_position (canvases s c))
                = Ok doc' -> reads_back doc') ->
  let once := snd (saveCurrentPosition view s) in
  vault (snd (saveCurrentPosition view once)) = vault once.
Proof.
  intros Hc Hread Hparse Hwf Hback. simpl.
  rewrite (saveCurrentPosition_run _ _ Hc Hread Hparse).
  destruct (saved_document_well_formed doc (viewport_key s)
              (canvas_position (canvases s c)) Hwf) as [doc' Hsave].
  rewrite Hsave. simpl.
  set (s1 := with_notices _ _).
  assert (Hread1 : content_of s1 (view_file view) = Some (JSON_stringify doc'))
    by apply content_of_written.
  rewrite (saveCurrentPosition_run _ _ Hc Hread1 (Hback _ Hsave)).
  change (viewport_key s1) with (viewport_key s).
  change (canvases s1 c) with (canvases s c).
  rewrite (@saved_document_again _ _ _ _ Hwf Hsave). simpl.
  unfold written. simpl. apply assoc_set_set.
Qed.

(** X4.  Last write wins: after a save, any move of the camera and a
    second save, [loadSavedPosition] returns the camera of the second
    save. *)
Theorem last_save_wins
    (view : CanvasView) (c : canvas_ref) (s : state) (text : string) (doc : value)
    (moved : canvas_ref -> canvas) :
  view_canvas view = Some c ->
  content_of s (view_file view) = Some text ->
  JSON_parse text = Some doc ->
  well_formed doc = true ->
  (forall doc1 doc2,
      saved_document doc (viewport_key s) (canvas_position (canvases s c)) = Ok doc1 ->
      saved_document doc1 (viewport_key s) (canvas_position (moved c)) = Ok doc2 ->
      reads_back doc1 /\ reads_back doc2) ->
  let first := with_canvases moved (snd (saveCurrentPosition view s)) in
  fst (loadSavedPosition (view_file view) (snd (saveCurrentPosition view first)))
  = Ok (canvas_position (moved c)).
Proof.
  intros Hc Hread Hparse Hwf Hback. simpl.
  rewrite (saveCurrentPosition_run _ _ Hc Hread Hparse).
  destruct (saved_document_well_formed doc (viewport_key s)
              (canvas_position (canvases s c)) Hwf) as [doc1 Hsave1].
  rewrite Hsave1. simpl.
  set (s1 := with_canvases moved _).
  pose proof (@saved_document_keeps_well_formed _ _ _ _ Hwf Hsave1) as Hwf1.
  destruct (saved_document_well_formed doc1 (viewport_key s)
              (canvas_position (moved c)) Hwf1) as [doc2 Hsave2].
  destruct (Hback _ _ Hsave1 Hsave2) as [Hb1 Hb2].
  assert (Hread1 : content_of s1 (view_file view) = Some (JSON_stringify doc1))
    by apply content_of_written.
  rewrite (saveCurrentPosition_run _ _ Hc Hread1 Hb1).
  change (viewport_key s1) with (viewport_key s).
  change (canvases s1 c) with (moved c).
  rewrite Hsave2. simpl.
  set (s2 := with_notices _ _).
  rewrite (@load_written (view_file view) s1 doc2 s2 eq_refl Hb2).
  change (viewport_key s2) with (viewport_key s).
  unfold loaded, viewport_entry.
  now rewrite (saved_document_entries _ _ _ Hsave2), assoc_get_set_same.
Qed.

(** The delete step writes exactly when the load finds an entry. *)
Lemma deleted_document_or_nothing doc K :
  (loaded doc K = VNull
   /\ (deleted_document doc K = Ok None \/ exists e, deleted_document doc K = Throw e))
  \/ (truthy (loaded doc K) = true
      /\ exists doc', deleted_document doc K = Ok (Some doc')).
Proof.
  unfold loaded.
  destruct (viewport_entry doc K) as [x|] eqn:Hx.
  - destruct (truthy x) eqn:Ht.
    + right. split; trivial. eapply deleted_document_present; eauto.
    + left. split; trivial. unfold deleted_document.
      destruct (get_prop doc "viewports") as [viewports|e] eqn:Hg; [|eauto].
      rewrite (entry_read _ K Hg), Hx, Ht. auto.
  - left. split; trivial. now apply deleted_document_absent.
Qed.

(** X5.  Saving a viewport where the document had none for the key, and
    deleting it again, leaves the file with the serialization of the
    document it started from (a well-formed one without an empty
    [viewports] mapping): no [viewports] residue stays behind. *)
Theorem save_then_delete_restores_the_document
    (view : CanvasView) (c : canvas_ref) (s : state) (text : string) (doc : value) :
  view_canvas view = Some c ->
  content_of s (view_file view) = Some text ->
  JSON_parse text = Some doc ->
  well_formed doc = true ->
  viewport_entry doc (viewport_key s) = None ->
  has_empty_viewports doc = false ->
  (forall doc', saved_document doc (viewport_key s) (canvas_position (canvases s c))
                = Ok doc' -> reads_back doc') ->
  let saved := snd (saveCurrentPosition view s) in
  fst (deleteSavedPosition view saved) = Ok true
  /\ content_of (snd (deleteSavedPosition view saved)) (view_file view)
     = Some (JSON_stringify doc).
Proof.
  intros Hc Hread Hparse Hwf Habs Hne Hback. simpl.
  rewrite (saveCurrentPosition_run _ _ Hc Hread Hparse).
  destruct (saved_document_well_formed doc (viewport_key s)
              (canvas_position (canvases s c)) Hwf) as [doc' Hsave].
  rewrite Hsave. simpl.
  set (s1 := with_notices _ _).
  assert (Hread1 : content_of s1 (view_file view) = Some (JSON_stringify doc'))
    by apply content_of_written.
  rewrite (deleteSavedPosition_run _ _ Hread1 (Hback _ Hsave)).
  change (viewport_key s1) with (viewport_key s).
  rewrite (@deleted_saved_document doc (viewport_key s)
             (canvas_position (canvases s c)) doc' Hwf Habs Hne eq_refl Hsave).
  simpl.
  split; trivial. apply content_of_written.
Qed.

(** X6.  After [deleteSavedPosition], whatever it returned,
    [loadSavedPosition] under the same key finds nothing. *)
Theorem delete_then_load_finds_nothing
    (view : CanvasView) (s : state) (text : string) (doc : value) :
  content_of s (view_file view) = Some text ->
  JSON_parse text = Some doc ->
  (forall doc', deleted_document doc (viewport_key s) = Ok (Some doc') ->
                reads_back doc') ->
  fst (loadSavedPosition (view_file view) (snd (deleteSavedPosition view s)))
  = Ok VNull.
Proof.
  intros Hread Hparse Hback.
  rewrite (deleteSavedPosition_run _ _ Hread Hparse).
  destruct (deleted_document_or_nothing doc (viewport_key s))
    as [(Hl & [Hd | [e Hd]]) | (_ & doc' & Hd)]; rewrite Hd; simpl.
  - now rewrite (loadSavedPosition_run _ _ Hread Hparse), Hl.
  - set (s1 := with_console_errors _ s).
    assert (Hread1 : content_of s1 (view_file view) = Some text) by exact Hread.
    rewrite (loadSavedPosition_run _ _ Hread1 Hparse).
    change (viewport_key s1) with (viewport_key s). now rewrite Hl.
  - set (s1 := with_vault _ s).
    rewrite (@load_written (view_file view) s doc' s1 eq_refl (Hback _ Hd)).
    change (viewport_key s1) with (viewport_key s).
    apply deleted_document_props in Hd as (_ & He & _).
    unfold loaded, viewport_entry. now rewrite He, assoc_get_remove_same.
Qed.

Lemma delete_agrees_with_load (view : CanvasView) (s : state) :
  exists v,
    fst (loadSavedPosition (view_file view) s) = Ok v
    /\ fst (deleteSavedPosition view s) = Ok (truthy v).
Proof.
  destruct (content_of s (view_file view)) as [text|] eqn:Hread.
  - destruct (JSON_parse text) as [doc|] eqn:Hparse.
    + exists (loaded doc (viewport_key s)).
      rewrite (loadSavedPosition_run _ _ Hread Hparse). split; trivial.
      rewrite (deleteSavedPosition_run _ _ Hread Hparse).
      destruct (deleted_document_or_nothing doc (viewport_key s))
        as [(Hl & [Hd | [e Hd]]) | (Hl & doc' & Hd)]; rewrite Hd, ?Hl; reflexivity.
    + exists VNull. rewrite (loadSavedPosition_malformed _ _ Hread Hparse).
      split; trivial. apply deleteSavedPosition_no_document. eauto.
  - exists VNull. rewrite (loadSavedPosition_unreadable _ _ Hread).
    split; trivial. apply deleteSavedPosition_no_document. auto.
Qed.

(** X7.  [deleteSavedPosition] returns [true] exactly when
    [loadSavedPosition] finds a saved entry: its result is the truth
    value of what the load returns, on every file and state. *)
Theorem delete_returns_whether_load_finds (view : CanvasView) (s : state) :
  exists v,
    fst (loadSavedPosition (view_file view) s) = Ok v
    /\ fst (deleteSavedPosition view s) = Ok (truthy v).
Proof. apply delete_agrees_with_load. Qed.

(** What a session with another viewport key loads is the same before and
    after this session saves or deletes its own viewport. *)
Lemma other_keys_unaffected
    (view : CanvasView) (s : state) (text : string) (doc : value)
    (other other_after_save other_after_delete : state) :
  content_of s (view_file view) = Some text ->
  JSON_parse text = Some doc ->
  viewport_key other <> viewport_key s ->
  viewport_key other_after_save = viewport_key other ->
  viewport_key other_after_delete = viewport_key other ->
  vault other = vault s ->
  vault other_after_save = vault (snd (saveCurrentPosition view s)) ->
  vault other_after_delete = vault (snd (deleteSavedPosition view s)) ->
  (forall doc', store_writes view s doc doc' -> reads_back doc') ->
  fst (loadSavedPosition (view_file view) other_after_save)
  = fst (loadSavedPosition (view_file view) other)
  /\ fst (loadSavedPosition (view_file view) other_after_delete)
     = fst (loadSavedPosition (view_file view) other).
Proof.
  intros Hread Hparse Hne Hk1 Hk2 Hv Hv1 Hv2 Hback.
  assert (Hread0 : content_of other (view_file view) = Some text).
  { unfold content_of in *. now rewrite Hv. }
  rewrite (loadSavedPosition_run _ _ Hread0 Hparse).
  assert (Hsame : forall (s2 : state) doc',
             vault s2 = written (view_file view) (JSON_stringify doc') s ->
             viewport_key s2 = viewport_key other ->
             reads_back doc' -> same_elsewhere (viewport_key s) doc doc' ->
             fst (loadSavedPosition (view_file view) s2)
             = Ok (loaded doc (viewport_key other))).
  { intros s2 doc' H2 Hk Hb Hs.
    rewrite (@load_written (view_file view) s doc' s2 H2 Hb), Hk.
    unfold loaded. now rewrite (same_elsewhere_entry Hs Hne). }
  assert (Hunchanged : forall s2 : state,
             vault s2 = vault s -> viewport_key s2 = viewport_key other ->
             fst (loadSavedPosition (view_file view) s2)
             = Ok (loaded doc (viewport_key other))).
  { intros s2 H2 Hk.
    rewrite <- (loadSavedPosition_run _ _ Hread0 Hparse).
    apply load_depends_on_content_and_key; trivial.
    unfold content_of. now rewrite H2, Hv. }
  split.
  - destruct (view_canvas view) as [c|] eqn:Hc.
    + rewrite (saveCurrentPosition_run _ _ Hc Hread Hparse) in Hv1.
      destruct (saved_document _ _ _) as [doc'|e] eqn:Hsave; simpl in Hv1.
      * apply (Hsame _ doc'); trivial; [apply Hback; left; eauto|].
        eapply saved_document_same_elsewhere; eauto.
      * now apply Hunchanged.
    + unfold saveCurrentPosition in Hv1. rewrite Hc in Hv1. now apply Hunchanged.
  - rewrite (deleteSavedPosition_run _ _ Hread Hparse) in Hv2.
    destruct (deleted_document _ _) as [[doc'|]|e] eqn:Hdel; simpl in Hv2.
    + apply (Hsame _ doc'); trivial; [apply Hback; now right|].
      now apply deleted_document_same_elsewhere.
    + now apply Hunchanged.
    + now apply Hunchanged.
Qed.

(** X8.  Keys are isolated: what a session with another viewport key
    loads from the file is the same before and after this session saves
    its own viewport, and before and after it deletes it. *)
Theorem other_keys_load_the_same
    (view : CanvasView) (s : state) (text : string) (doc : value) (other : state) :
  content_of s (view_file view) = Some text ->
  JSON_parse text = Some doc ->
  viewport_key other <> viewport_key s ->
  vault other = vault s ->
  (forall doc', store_writes view s doc doc' -> reads_back doc') ->
  fst (loadSavedPosition (view_file view)
         (with_vault (vault (snd (saveCurrentPosition view s))) other))
  = fst (loadSavedPosition (view_file view) other)
  /\ fst (loadSavedPosition (view_file view)
            (with_vault (vault (snd (deleteSavedPosition view s))) other))
     = fst (loadSavedPosition (view_file view) other).
Proof.
  intros Hread Hparse Hne Hv Hback.
  exact (@other_keys_unaffected view s text doc other
           (with_vault (vault (snd (saveCurrentPosition view s))) other)
           (with_vault (vault (snd (deleteSavedPosition view s))) other)
           Hread Hparse Hne eq_refl eq_refl Hv eq_refl eq_refl Hback).
Qed.

(** X9.  Under [useGlobalViewport] the device does not matter: what one
    device saved, [loadSavedPosition] returns on any other device that
    has the setting on and sees the saved file. *)
Theorem global_viewport_is_shared
    (view : CanvasView) (c : canvas_ref) (s : state) (text : string) (doc : value)
    (elsewhere : state) :
  view_canvas view = Some c ->
  content_of s (view_file view) = Some text ->
  JSON_parse text = Some doc ->
  well_formed doc = true ->
  useGlobalViewport (settings s) = true ->
  useGlobalViewport (settings elsewhere) = true ->
  vault elsewhere = vault (snd (saveCurrentPosition view s)) ->
  (forall doc', saved_document doc "global" (canvas_position (canvases s c)) = Ok doc' ->
                reads_back doc') ->
  fst (loadSavedPosition (view_file view) elsewhere)
  = Ok (canvas_position (canvases s c)).
Proof.
  intros Hc Hread Hparse Hwf Hg Hg' Hv Hback.
  assert (Hk : viewport_key s = "global") by (unfold viewport_key; now rewrite Hg).
  assert (Hk' : viewport_key elsewhere = "global")
    by (unfold viewport_key; now rewrite Hg').
  rewrite (saveCurrentPosition_run _ _ Hc Hread Hparse), Hk in Hv.
  destruct (saved_document_well_formed doc "global"
              (canvas_position (canvases s c)) Hwf) as [doc' Hsave].
  rewrite Hsave in Hv. simpl in Hv.
  rewrite (@load_written (view_file view) s doc' elsewhere Hv (Hback _ Hsave)), Hk'.
  unfold loaded, viewport_entry.
  now rewrite (saved_document_entries _ _ _ Hsave), assoc_get_set_same.
Qed.

(** ** Device keys *)

Lemma has_at_append a b : has_at (a ++ b) = has_at a || has_at b.
Proof.
  unfold has_at. induction a as [|ch a IH]; simpl; trivial.
  now rewrite IH, orb_assoc.
Qed.

Lemma getDeviceIdentifier_has_at P width height pixelRatio :
  has_at (getDeviceIdentifier P width height pixelRatio) = true.
Proof.
  destruct (getDeviceIdentifier_shape P width height pixelRatio) as [t ->].
  rewrite !has_at_append. simpl. now rewrite !orb_true_r.
Qed.

(** X10.  A device identifier is never the key ["global"]: in a session
    whose [currentDevice] was computed by [getDeviceIdentifier], the
    viewport key is ["global"] exactly when [useGlobalViewport] is on, so
    a per-device entry and the shared entry never collide. *)
Theorem device_key_is_not_global
    (P : Platform) (width height pixelRatio : string) (s : state) :
  currentDevice s = getDeviceIdentifier P width height pixelRatio ->
  (viewport_key s = "global" <-> useGlobalViewport (settings s) = true).
Proof.
  intros Hd. unfold viewport_key.
  destruct (useGlobalViewport (settings s)); split; trivial; try discriminate.
  intros H. rewrite Hd in H.
  pose proof (getDeviceIdentifier_has_at P width height pixelRatio) as Hat.
  rewrite H in Hat. discriminate.
Qed.
End StoreExtras.

(* ================================================================== *)
(** * More on the classifier and the applier *)
(* ================================================================== *)

Section ClassifierExtras.
Context {RT : Runtime} {CH : CanvasHost}.

Lemma with_openCanvasFiles_same (s : state) :
  with_openCanvasFiles (openCanvasFiles s) s = s.
Proof. now destruct s. Qed.

(** What the handler leaves behind, whatever the activation and whether
    it returns or throws. *)
Lemma on_file_open_frame file s :
  let s' := snd (on_file_open file s) in
  openCanvasFiles s' = current_paths s
  /\ currentDevice s' = currentDevice s
  /\ settings s' = settings s
  /\ vault s' = vault s
  /\ leaves s' = leaves s
  /\ canvases s' = canvases s.
Proof.
  simpl. destruct (genuine_open_dec file (openCanvasFiles s)) as [G | N].
  - destruct G as (f & -> & E & Hin).
    rewrite on_file_open_genuine by trivial.
    destruct (restoreViewport_frame f (with_openCanvasFiles (current_paths s) s))
      as (H2 & H3 & H4 & H5 & H6 & H7 & _).
    repeat split; trivial.
  - rewrite on_file_open_spurious; [simpl; repeat split|].
    intros (g & -> & E & Hin).
    destruct N as [N | (g' & [= <-] & [N | N])]; [discriminate| |]; contradiction.
Qed.

(** X11.  An activation only reads: whatever the activation, and whether
    the file-open handler returns or is left by an exception, it leaves
    the vault, the settings, the device identifier and every live canvas
    as they are (a camera moves only when a queued animation frame
    runs). *)
Theorem activation_writes_nothing (file : option TFile) (s : state) :
  let s' := snd (on_file_open file s) in
  vault s' = vault s
  /\ settings s' = settings s
  /\ currentDevice s' = currentDevice s
  /\ canvases s' = canvases s.
Proof.
  destruct (on_file_open_frame file s) as (_ & H3 & H4 & H5 & _ & H7).
  simpl. auto.
Qed.

(** X12.  After any activation, the next one is classified by the leaves
    that were open at the first: activating [f] restores iff [f] is a
    canvas whose path was not among them.  In particular the re-signal
    for a canvas that was open changes nothing at all. *)
Theorem next_activation_is_classified_by_open_leaves
    (first : option TFile) (f : TFile) (s : state) :
  let s1 := snd (on_file_open first s) in
  (restoration_triggered s1 (snd (on_file_open (Some f) s1))
   <-> extension f = "canvas" /\ ~ In (path f) (current_paths s))
  /\ (In (path f) (current_paths s) -> on_file_open (Some f) s1 = (Ok tt, s1)).
Proof.
  simpl. set (s1 := snd (on_file_open first s)).
  destruct (on_file_open_frame first s) as (Ho & _ & _ & _ & Hl & _).
  fold s1 in Ho, Hl.
  assert (Hc : current_paths s1 = current_paths s)
    by (unfold current_paths; now rewrite Hl).
  split.
  - split.
    + intros [g Hg].
      destruct (genuine_open_dec (Some f) (openCanvasFiles s1))
        as [(h & [= <-] & E & Hin) | N].
      * rewrite Ho in Hin. auto.
      * exfalso. rewrite on_file_open_spurious in Hg.
        -- simpl in Hg. now apply append_one_neq in Hg.
        -- intros (h & [= <-] & E & Hin).
           destruct N as [N | (h & [= <-] & [N | N])]; [discriminate| |]; contradiction.
    + intros [E Hin]. exists f.
      rewrite on_file_open_genuine; trivial; [|now rewrite Ho].
      now destruct (restoreViewport_frame f (with_openCanvasFiles (current_paths s1) s1))
        as (_ & _ & _ & _ & _ & _ & ->).
  - intros Hin. rewrite on_file_open_spurious.
    + now rewrite Hc, <- Ho, with_openCanvasFiles_same.
    + intros (h & [= <-] & E & Hn). apply Hn. now rewrite Ho.
Qed.

(** X13.  With nothing remembered, as in a freshly loaded plugin and after
    [onunload], the first activation of a canvas is restored even when
    that canvas is already among the open leaves; [onunload] forgets the
    remembered set and changes nothing else. *)
Theorem nothing_remembered_restores_open_canvases (f : TFile) (s : state) :
  extension f = "canvas" ->
  (openCanvasFiles s = [] -> restoration_triggered s (snd (on_file_open (Some f) s)))
  /\ fst (onunload s) = Ok tt
  /\ snd (onunload s) = with_openCanvasFiles [] s
  /\ restoration_triggered (snd (onunload s))
       (snd (on_file_open (Some f) (snd (onunload s)))).
Proof.
  intros E.
  assert (H : forall s0 : state, openCanvasFiles s0 = [] ->
                restoration_triggered s0 (snd (on_file_open (Some f) s0))).
  { intros s0 H0. exists f.
    rewrite on_file_open_genuine; trivial; [|rewrite H0; auto].
    now destruct (restoreViewport_frame f (with_openCanvasFiles (current_paths s0) s0))
      as (_ & _ & _ & _ & _ & _ & ->). }
  repeat split; auto.
Qed.
End ClassifierExtras.

Section ApplierExtras.
Context {RT : Runtime} {CH : CanvasHost}.

Lemma get_prop_truthy position k :
  truthy position = true -> get_prop position k = Ok (field_of position k).
Proof. destruct position; simpl; trivial; discriminate. Qed.

(** [restoreViewport] as a function of what [loadSavedPosition] returns. *)
Lemma restoreViewport_run file s :
  let s0 := with_restorations (restorations s ++ [file]) s in
  exists position,
    fst (loadSavedPosition file s) = Ok position
    /\ restoreViewport file s
       = if truthy position
         then restoreViewport_apply position (snd (loadSavedPosition file s0))
         else Notice "No saved viewport position found" (snd (loadSavedPosition file s0)).
Proof.
  simpl. set (s0 := with_restorations _ s).
  destruct (loadSavedPosition_total file s0) as [position Hv].
  exists position. split.
  - rewrite <- Hv. now apply load_depends_on_content_and_key.
  - unfold restoreViewport. unfold_m. simpl. fold s0.
    destruct (loadSavedPosition file s0) as [r s1]. simpl in Hv. subst r.
    now destruct (truthy position).
Qed.

(** X14.  When [loadSavedPosition] finds nothing for the file,
    [restoreViewport] tells the user so and queues no animation frame. *)
Theorem restore_without_saved_position (file : TFile) (s : state) :
  fst (loadSavedPosition file s) = Ok VNull ->
  let s' := snd (restoreViewport file s) in
  notices s' = notices s ++ ["No saved viewport position found"]
  /\ frames s' = frames s
  /\ canvases s' = canvases s.
Proof.
  intros Hnull. simpl.
  destruct (restoreViewport_run file s) as (position & Hp & ->).
  rewrite Hnull in Hp. injection Hp as <-. simpl.
  destruct (loadSavedPosition_state file
              (with_restorations (restorations s ++ [file]) s)) as [-> | ->];
    simpl; auto.
Qed.

(** X15.  When a position is found but no canvas is ready after the timer
    (no canvas leaf, a first leaf without canvas object, or a canvas whose
    [tZoom] is still undefined), [restoreViewport] gives up silently: no
    notice, no animation frame, no canvas touched. *)
Theorem restore_gives_up_silently (file : TFile) (s : state) (position : value) :
  fst (loadSavedPosition file s) = Ok position ->
  truthy position = true ->
  match leaves s with
  | [] => True
  | canvasView :: _ =>
      match view_canvas canvasView with
      | None => True
      | Some c => canvas_tZoom (canvases s c) = None
      end
  end ->
  let s' := snd (restoreViewport file s) in
  notices s' = notices s /\ frames s' = frames s /\ canvases s' = canvases s.
Proof.
  intros Hp Ht Hready. simpl.
  destruct (restoreViewport_run file s) as (position' & Hp' & ->).
  rewrite Hp in Hp'. injection Hp' as <-. rewrite Ht.
  set (s0 := with_restorations _ s).
  assert (Hs : forall s1 : state,
             leaves s1 = leaves s -> canvases s1 = canvases s ->
             notices s1 = notices s -> frames s1 = frames s ->
             let s' := snd (restoreViewport_apply position s1) in
             notices s' = notices s /\ frames s' = frames s /\ canvases s' = canvases s).
  { intros s1 Hl Hc Hn Hf.
    unfold restoreViewport_apply, getLeavesOfType_canvas. unfold_m. rewrite Hl.
    destruct (leaves s) as [|canvasView rest]; simpl; auto.
    destruct (view_canvas canvasView) as [c|]; simpl; auto.
    rewrite Hc, Hready. simpl. auto. }
  destruct (loadSavedPosition_state file s0) as [-> | ->]; now apply Hs.
Qed.

(** X16.  When a position is found and the first canvas leaf is ready,
    [restoreViewport] shows no notice and touches no canvas, and what it
    does is decided by the conversion of [position.tZoom] to a number in
    [position.tZoom - currentZoom].  When the conversion gives [target],
    [restoreViewport] returns and queues exactly one animation frame: for
    the canvas of the first canvas leaf, whichever file was asked for,
    with the zoom change [target - currentZoom].  When the conversion
    throws, [restoreViewport] is left by that exception with no frame
    queued: the subtraction stands before the [try]. *)
Theorem restore_queues_one_frame_for_the_first_leaf
    (file : TFile) (s : state) (position : value)
    (canvasView : CanvasView) (behind : list CanvasView)
    (c : canvas_ref) (currentZoom : float) :
  fst (loadSavedPosition file s) = Ok position ->
  truthy position = true ->
  leaves s = canvasView :: behind ->
  view_canvas canvasView = Some c ->
  canvas_tZoom (canvases s c) = Some currentZoom ->
  let s' := snd (restoreViewport file s) in
  notices s' = notices s
  /\ canvases s' = canvases s
  /\ match ToNumber (field_of position "tZoom") with
     | Ok target =>
         fst (restoreViewport file s) = Ok tt
         /\ frames s'
            = frames s ++ [ApplyViewport c (target - currentZoom)%float position]
     | Throw e =>
         fst (restoreViewport file s) = Throw e
         /\ frames s' = frames s
     end.
Proof.
  intros Hp Ht Hl Hc Hz. simpl.
  destruct (restoreViewport_run file s) as (position' & Hp' & ->).
  rewrite Hp in Hp'. injection Hp' as <-. rewrite Ht.
  set (s0 := with_restorations _ s).
  assert (Hs : forall s1 : state,
             leaves s1 = leaves s -> canvases s1 = canvases s ->
             notices s1 = notices s -> frames s1 = frames s ->
             let r := restoreViewport_apply position s1 in
             notices (snd r) = notices s
             /\ canvases (snd r) = canvases s
             /\ match ToNumber (field_of position "tZoom") with
                | Ok target =>
                    fst r = Ok tt
                    /\ frames (snd r)
                       = frames s
                         ++ [ApplyViewport c (target - currentZoom)%float position]
                | Throw e => fst r = Throw e /\ frames (snd r) = frames s
                end).
  { intros s1 Hl1 Hc1 Hn Hf.
    unfold restoreViewport_apply, getLeavesOfType_canvas, requestAnimationFrame.
    unfold_m. rewrite Hl1, Hl, Hc, Hc1, Hz, (get_prop_truthy _ "tZoom" Ht). simpl.
    destruct (ToNumber (field_of position "tZoom")) as [target|e]; simpl.
    - now rewrite Hf.
    - auto. }
  destruct (loadSavedPosition_state file s0) as [-> | ->]; now apply Hs.
Qed.

(** X17.  The queued frame zooms first and pans second, and nothing is
    rolled back: when [zoomBy] succeeds and [panTo] throws, the exception
    leaves the frame with the zoom applied, the pan not applied and no
    notice; when the four calls succeed the canvas is the result of
    [zoomBy], [panTo], [markViewportChanged], [requestFrame] in this
    order and the notice says restored. *)
Theorem frame_zooms_then_pans_without_rollback
    (s : state) (c : canvas_ref) (zoomDelta : float) (position : value)
    (rest : list frame_task) (zoomed : canvas) :
  frames s = ApplyViewport c zoomDelta position :: rest ->
  truthy position = true ->
  zoomBy zoomDelta (canvases s c) = Ok zoomed ->
  (forall e,
      panTo (field_of position "tx") (field_of position "ty") zoomed = Throw e ->
      run_animation_frame s
      = (Throw e, with_canvases (canvas_replaced c zoomed s) (with_frames rest s)))
  /\ (forall panned marked requested,
      panTo (field_of position "tx") (field_of position "ty") zoomed = Ok panned ->
      markViewportChanged panned = Ok marked ->
      requestFrame marked = Ok requested ->
      fst (run_animation_frame s) = Ok tt
      /\ canvases (snd (run_animation_frame s)) c = requested
      /\ notices (snd (run_animation_frame s))
         = notices s ++ ["Canvas viewport restored"]).
Proof.
  intros Hf Ht Hz. split.
  - intros e Hp.
    unfold run_animation_frame, frame_callback, canvas_call. unfold_m.
    rewrite Hf. simpl. rewrite Hz. simpl.
    rewrite !(get_prop_truthy _ _ Ht). simpl.
    rewrite Nat.eqb_refl, Hp. reflexivity.
  - intros panned marked requested Hp Hm Hr.
    unfold run_animation_frame, frame_callback, canvas_call, Notice. unfold_m.
    rewrite Hf. simpl. rewrite Hz. simpl.
    rewrite !(get_prop_truthy _ _ Ht). simpl.
    rewrite Nat.eqb_refl, Hp. simpl.
    rewrite Nat.eqb_refl, Hm. simpl.
    rewrite Nat.eqb_refl, Hr. simpl.
    now rewrite Nat.eqb_refl.
Qed.
End ApplierExtras.

(* ================================================================== *)
(** * Commands and settings *)
(* ================================================================== *)

Section CommandExtras.
Context {RT : Runtime} {CH : CanvasHost}.

(** [deleteSavedPosition] shows no notice and changes no setting. *)
Lemma deleteSavedPosition_frame view s :
  let s' := snd (deleteSavedPosition view s) in
  notices s' = notices s /\ viewport_key s' = viewport_key s.
Proof.
  simpl. destruct (content_of s (view_file view)) as [text|] eqn:Hread.
  - destruct (JSON_parse text) as [doc|] eqn:Hparse.
    + rewrite (deleteSavedPosition_run _ _ Hread Hparse).
      destruct (deleted_document _ _) as [[doc'|]|e]; simpl; auto.
    + unfold deleteSavedPosition, vault_read, parse, console_error. unfold_m.
      rewrite Hread, Hparse. simpl. auto.
  - unfold deleteSavedPosition, vault_read, parse, console_error. unfold_m.
    rewrite Hread. simpl. auto.
Qed.

(** X18.  The three commands are available exactly when a canvas leaf is
    open.  Asked whether they are available ([checking]) they answer and
    change nothing; run without an open canvas they only show the notice
    asking to open one. *)
Theorem commands_need_an_open_canvas (s : state) :
  let available := match leaves s with [] => false | _ :: _ => true end in
  let asked := with_notices (notices s ++ ["Please open a canvas first"]) s in
  (save_command true s = (Ok available, s)
   /\ restore_command true s = (Ok available, s)
   /\ delete_command true s = (Ok available, s))
  /\ (fst (save_command false s) = Ok available
      /\ fst (restore_command false s) = Ok available
      /\ fst (delete_command false s) = Ok available)
  /\ (leaves s = [] ->
      snd (save_command false s) = asked
      /\ snd (restore_command false s) = asked
      /\ snd (delete_command false s) = asked).
Proof.
  unfold save_command, restore_command, delete_command, getLeavesOfType_canvas,
    fire_and_forget, Notice.
  unfold_m. simpl.
  destruct (leaves s) as [|canvasView rest]; simpl; repeat split; trivial;
    discriminate.
Qed.

(** X19.  The delete command tells the truth: run on an open canvas, it
    shows the notice that the position was deleted for the current key
    exactly when [loadSavedPosition] found an entry for the first canvas
    leaf, and the notice that nothing was saved otherwise; it shows
    nothing else. *)
Theorem delete_command_reports_what_it_did
    (s : state) (canvasView : CanvasView) (behind : list CanvasView) :
  leaves s = canvasView :: behind ->
  exists found,
    fst (loadSavedPosition (view_file canvasView) s) = Ok found
    /\ fst (delete_command false s) = Ok true
    /\ vault (snd (delete_command false s))
       = vault (snd (deleteSavedPosition canvasView s))
    /\ notices (snd (delete_command false s))
       = notices s
         ++ [if truthy found
             then ("Canvas viewport position deleted for " ++ viewport_key s)%string
             else "No saved viewport position found"].
Proof.
  intros Hl.
  destruct (delete_agrees_with_load canvasView s) as (found & Hload & Hdel).
  destruct (deleteSavedPosition_frame canvasView s) as [Hn Hk]. simpl in Hn, Hk.
  exists found. split; trivial.
  unfold delete_command, getLeavesOfType_canvas, fire_and_forget, getViewportKey, Notice.
  unfold_m. rewrite Hl. simpl.
  destruct (deleteSavedPosition canvasView s) as [r s1]. simpl in *. subst r.
  destruct (truthy found); simpl; rewrite ?Hn, ?Hk; auto.
Qed.
End CommandExtras.

Section SettingsExtras.
Context {RT : Runtime} {CH : CanvasHost}.

Lemma assoc_get_not_in (A : Type) k (l : list (string * A)) :
  ~ In k (keys l) -> assoc_get k l = None.
Proof.
  induction l as [|[k' x] l IH]; simpl; trivial.
  intros H. destruct (String.eqb k k') eqn:E.
  - apply String.eqb_eq in E. exfalso. auto.
  - apply IH. auto.
Qed.

(** Copying properties one by one: the copied value wins, the others stay. *)
Lemma assoc_get_assign (A : Type) k (l target : list (string * A)) :
  NoDup (keys l) ->
  assoc_get k (fold_left (fun props kv => assoc_set (fst kv) (snd kv) props) l target)
  = match assoc_get k l with
    | Some x => Some x
    | None => assoc_get k target
    end.
Proof.
  revert target. induction l as [|[k' x] l IH]; intros target Hnd; simpl; trivial.
  inversion Hnd as [|? ? Hnotin Hnd']; subst.
  rewrite (IH _ Hnd').
  destruct (String.eqb k k') eqn:E.
  - apply String.eqb_eq in E. subst k'.
    now rewrite (assoc_get_not_in _ _ Hnotin), assoc_get_set_same.
  - apply String.eqb_neq in E.
    now rewrite (assoc_get_set_other _ _ E).
Qed.

(** X20.  [loadSettings] merges the stored data over the defaults: a
    stored key overrides the default with its truth value, a key that is
    not stored keeps the default [false], and with nothing stored
    ([null]) the settings are the defaults.  Nothing but the settings
    changes. *)
Theorem stored_settings_override_defaults
    (fields : list (string * value)) (s : state) :
  NoDup (keys fields) ->
  let stored k := match assoc_get k fields with
                  | Some v => truthy v
                  | None => false
                  end in
  snd (loadSettings (VObject fields) s)
  = with_settings {| debugMode := stored "debugMode";
                     useGlobalViewport := stored "useGlobalViewport" |} s
  /\ snd (loadSettings VNull s) = with_settings DEFAULT_SETTINGS s.
Proof.
  intros Hnd. simpl. split; [|reflexivity].
  unfold loadSettings, modify_state, settings_of, Object_assign. simpl.
  rewrite !(assoc_get_assign _ _ _ Hnd). simpl.
  destruct (assoc_get "debugMode" fields), (assoc_get "useGlobalViewport" fields);
    reflexivity.
Qed.
End SettingsExtras.

(* ================================================================== *)
(** * The single-viewport store and the per-device store *)
(* ================================================================== *)

Section LegacyExtras.
Context {RT : Runtime} {CH : CanvasHost}.

Lemma legacy_load_run file s text doc :
  content_of s file = Some text -> JSON_parse text = Some doc ->
  fst (Legacy.loadSavedPosition file s) = Ok (legacy_loaded doc).
Proof.
  intros Hread Hparse.
  unfold Legacy.loadSavedPosition, legacy_loaded, vault_read, parse, console_error.
  unfold_m. rewrite Hread, Hparse.
  now destruct (get_prop doc "viewport").
Qed.

Lemma legacy_load_same_content file (s1 s2 : state) :
  content_of s1 file = content_of s2 file ->
  fst (Legacy.loadSavedPosition file s1) = fst (Legacy.loadSavedPosition file s2).
Proof.
  intros Hc.
  unfold Legacy.loadSavedPosition, vault_read, parse, console_error. unfold_m.
  rewrite Hc. destruct (content_of s2 file) as [text|]; trivial.
  destruct (JSON_parse text) as [doc|]; trivial.
  now destruct (get_prop doc "viewport").
Qed.

Lemma legacy_save_run view c s text doc :
  view_canvas view = Some c ->
  content_of s (view_file view) = Some text ->
  JSON_parse text = Some doc ->
  Legacy.saveCurrentPosition view s =
  match set_prop doc "viewport" (canvas_position (canvases s c)) with
  | Ok doc' =>
      (Ok tt,
       with_notices (notices s ++ ["Canvas viewport position saved"])
         (with_vault (written (view_file view) (JSON_stringify doc') s) s))
  | Throw e =>
      (Ok tt,
       with_notices (notices s ++ ["Failed to save viewport position"])
         (with_console_errors
            (console_errors s ++ ["Failed to save canvas viewport position:"]) s))
  end.
Proof.
  intros Hc Hread Hparse. unfold Legacy.saveCurrentPosition. rewrite Hc.
  unfold vault_read, vault_modify, parse, Notice, console_error. unfold_m.
  rewrite Hread, Hparse. simpl.
  destruct (set_prop doc "viewport" _); simpl; [rewrite Hread|]; reflexivity.
Qed.

Lemma legacy_delete_run view s text doc :
  content_of s (view_file view) = Some text ->
  JSON_parse text = Some doc ->
  Legacy.deleteSavedPosition view s =
  match get_prop doc "viewport" with
  | Ok viewport =>
      if truthy viewport then
        match delete_prop doc "viewport" with
        | Ok doc' =>
            (Ok true, with_vault (written (view_file view) (JSON_stringify doc') s) s)
        | Throw e =>
            (Ok false,
             with_console_errors
               (console_errors s ++ ["Failed to delete canvas viewport position:"]) s)
        end
      else (Ok false, s)
  | Throw e =>
      (Ok false,
       with_console_errors
         (console_errors s ++ ["Failed to delete canvas viewport position:"]) s)
  end.
Proof.
  intros Hread Hparse.
  unfold Legacy.deleteSavedPosition, vault_read, vault_modify, parse, console_error.
  unfold_m. rewrite Hread, Hparse.
  destruct (get_prop doc "viewport") as [viewport|e]; [|reflexivity].
  destruct (truthy viewport); simpl; [|reflexivity].
  destruct (delete_prop doc "viewport"); simpl; [rewrite Hread|]; reflexivity.
Qed.

(** X21.  The single-viewport store round-trips and deletes: on a canvas
    file that is a JSON object, loading after a save returns the saved
    camera, and after a delete that follows it the load finds nothing and
    the file holds the object without the [viewport] field. *)
Theorem single_viewport_round_trip
    (view : CanvasView) (c : canvas_ref) (s : state) (text : string)
    (fields : list (string * value)) :
  view_canvas view = Some c ->
  content_of s (view_file view) = Some text ->
  JSON_parse text = Some (VObject fields) ->
  let position := canvas_position (canvases s c) in
  reads_back (VObject (assoc_set "viewport" position fields)) ->
  reads_back (VObject (assoc_remove "viewport" fields)) ->
  let saved := snd (Legacy.saveCurrentPosition view s) in
  let deleted := snd (Legacy.deleteSavedPosition view saved) in
  fst (Legacy.loadSavedPosition (view_file view) saved) = Ok position
  /\ fst (Legacy.deleteSavedPosition view saved) = Ok true
  /\ content_of deleted (view_file view)
     = Some (JSON_stringify (VObject (assoc_remove "viewport" fields)))
  /\ fst (Legacy.loadSavedPosition (view_file view) deleted) = Ok VNull.
Proof.
  intros Hc Hread Hparse position Hb1 Hb2. simpl.
  rewrite (legacy_save_run _ _ Hc Hread Hparse). simpl. fold position.
  set (s1 := with_notices _ _).
  assert (Hread1 : content_of s1 (view_file view)
                   = Some (JSON_stringify (VObject (assoc_set "viewport" position fields))))
    by apply content_of_written.
  rewrite (legacy_load_run _ _ Hread1 Hb1).
  rewrite (legacy_delete_run _ _ Hread1 Hb1). simpl.
  rewrite assoc_get_set_same. simpl. rewrite assoc_remove_set.
  set (s2 := with_vault _ s1).
  assert (Hread2 : content_of s2 (view_file view)
                   = Some (JSON_stringify (VObject (assoc_remove "viewport" fields))))
    by apply content_of_written.
  rewrite (legacy_load_run _ _ Hread2 Hb2).
  unfold legacy_loaded. simpl. rewrite assoc_get_set_same, assoc_get_remove_same.
  repeat split; trivial.
Qed.

(** The steps of the per-device store succeed on objects and arrays only. *)
Lemma mutate_prop_truthy obj k update obj' :
  mutate_prop obj k update = Ok obj' -> truthy obj = true /\ truthy obj' = true.
Proof.
  unfold mutate_prop.
  destruct (get_prop obj k) as [inner|] eqn:Hg; [|discriminate].
  destruct (update inner) as [inner'|]; [|discriminate].
  intros Hs. split; [|now apply set_prop_props in Hs].
  destruct obj; simpl in *; trivial; discriminate.
Qed.

Lemma saved_document_truthy doc K position doc' :
  saved_document doc K position = Ok doc' -> truthy doc = true /\ truthy doc' = true.
Proof.
  unfold saved_document.
  destruct (get_prop doc "viewports") as [viewports|] eqn:Hg; [|discriminate].
  assert (Hd : truthy doc = true \/ viewports = VUndefined).
  { destruct doc; simpl in *; auto; try discriminate; injection Hg as <-; auto. }
  destruct (negb (truthy viewports)) eqn:Hn.
  - destruct (set_prop doc "viewports" (VObject [])) as [doc1|] eqn:Hs; [|discriminate].
    intros Hm. apply mutate_prop_truthy in Hm as [_ Hm]. split; trivial.
    destruct doc; simpl in *; trivial; discriminate.
  - intros Hm. now apply mutate_prop_truthy in Hm.
Qed.

Lemma deleted_document_truthy doc K doc' :
  deleted_document doc K = Ok (Some doc') -> truthy doc = true /\ truthy doc' = true.
Proof.
  unfold deleted_document.
  destruct (get_prop doc "viewports") as [viewports|]; [|discriminate].
  destruct (get_prop_opt viewports K) as [entry|]; [|discriminate].
  destruct (negb (truthy entry)); [discriminate|].
  destruct (mutate_prop doc _ _) as [doc1|] eqn:Hm; [|discriminate].
  apply mutate_prop_truthy in Hm as [Hd Hd1].
  destruct (get_prop doc1 "viewports") as [viewports1|]; [|discriminate].
  destruct (keys_length viewports1) as [n|]; [|discriminate].
  destruct (Nat.eqb n 0).
  - destruct (delete_prop doc1 "viewports") as [doc2|] eqn:Hdel; [|discriminate].
    intros [= <-]. split; trivial.
    destruct doc1; simpl in *; try discriminate; injection Hdel as <-; trivial.
  - intros [= <-]. auto.
Qed.

Lemma legacy_loaded_same doc doc' K :
  truthy doc = true -> truthy doc' = true -> same_elsewhere K doc doc' ->
  legacy_loaded doc' = legacy_loaded doc.
Proof.
  intros Ht Ht' Hs. unfold legacy_loaded.
  rewrite (get_prop_truthy _ "viewport" Ht), (get_prop_truthy _ "viewport" Ht').
  unfold field_of.
  assert (Hne : "viewport" <> "viewports") by discriminate.
  now rewrite (@same_elsewhere_field K doc doc' "viewport" Hs Hne).
Qed.

(** X22.  The per-device store neither reads nor touches the viewport of
    the single-viewport store: what the old [loadSavedPosition] returns
    for a file is the same before and after the new
    [saveCurrentPosition], and before and after the new
    [deleteSavedPosition]. *)
Theorem per_device_store_keeps_the_single_viewport
    (view : CanvasView) (s : state) (text : string) (doc : value) :
  content_of s (view_file view) = Some text ->
  JSON_parse text = Some doc ->
  (forall doc', store_writes view s doc doc' -> reads_back doc') ->
  fst (Legacy.loadSavedPosition (view_file view) (snd (saveCurrentPosition view s)))
  = fst (Legacy.loadSavedPosition (view_file view) s)
  /\ fst (Legacy.loadSavedPosition (view_file view) (snd (deleteSavedPosition view s)))
     = fst (Legacy.loadSavedPosition (view_file view) s).
Proof.
  intros Hread Hparse Hback.
  rewrite (legacy_load_run _ _ Hread Hparse).
  split.
  - destruct (view_canvas view) as [c|] eqn:Hc.
    + rewrite (saveCurrentPosition_run _ _ Hc Hread Hparse).
      destruct (saved_document _ _ _) as [doc'|e] eqn:Hsave; simpl.
      * set (s1 := with_notices _ _).
        assert (Hread1 : content_of s1 (view_file view) = Some (JSON_stringify doc'))
          by apply content_of_written.
        assert (Hb : reads_back doc') by (apply Hback; left; eauto).
        rewrite (legacy_load_run _ _ Hread1 Hb).
        destruct (saved_document_truthy _ _ _ Hsave) as [Ht Ht'].
        f_equal. apply (@legacy_loaded_same doc doc' (viewport_key s) Ht Ht').
        eapply saved_document_same_elsewhere; eauto.
      * set (s1 := with_notices _ _).
        assert (Hread1 : content_of s1 (view_file view) = Some text) by exact Hread.
        now rewrite (legacy_load_run _ _ Hread1 Hparse).
    + unfold saveCurrentPosition. rewrite Hc. simpl.
      now rewrite (legacy_load_run _ _ Hread Hparse).
  - rewrite (deleteSavedPosition_run _ _ Hread Hparse).
    destruct (deleted_document _ _) as [[doc'|]|e] eqn:Hdel; simpl.
    + set (s1 := with_vault _ s).
      assert (Hread1 : content_of s1 (view_file view) = Some (JSON_stringify doc'))
        by apply content_of_written.
      assert (Hb : reads_back doc') by (apply Hback; now right).
      rewrite (legacy_load_run _ _ Hread1 Hb).
      destruct (deleted_document_truthy _ _ Hdel) as [Ht Ht'].
      f_equal. apply (@legacy_loaded_same doc doc' (viewport_key s) Ht Ht').
      now apply deleted_document_same_elsewhere.
    + now rewrite (legacy_load_run _ _ Hread Hparse).
    + set (s1 := with_console_errors _ s).
      assert (Hread1 : content_of s1 (view_file view) = Some text) by exact Hread.
      now rewrite (legacy_load_run _ _ Hread1 Hparse).
Qed.
End LegacyExtras.

(* ================================================================== *)
(** * Runs on the reference runtime *)
(* ================================================================== *)

Module Board.
Import Reference.

Lemma empty_board_parses : parse_text (stringify empty_board) = Some empty_board.
Proof. vm_compute. reflexivity. Qed.

Lemma saved_board_parses : parse_text (stringify saved_board) = Some saved_board.
Proof. vm_compute. reflexivity. Qed.

Lemma zero_board_parses : parse_text (stringify zero_board) = Some zero_board.
Proof. vm_compute. reflexivity. Qed.

(** Saving on the empty board writes the saved board. *)
Lemma empty_board_saved :
  saved_document empty_board desktop_mac (position_value board_camera)
  = Ok saved_board.
Proof. reflexivity. Qed.

Example desktop_mac_identifier : desktop_mac = "MacOS_Desktop_1920x1080@2x".
Proof. reflexivity. Qed.

(** C2 at [Board.canvas]: saving the camera (10, 20, 1.5) into a canvas
    file without viewports and loading it again. *)
Lemma save_then_load_round_trip_witness :
  fst (loadSavedPosition (RT := runtime) board
         (snd (saveCurrentPosition (RT := runtime) board_view
                 (with_board host board_canvas empty_board))))
  = Ok (position_value board_camera).
Proof.
  apply (@save_then_load_round_trip runtime host board_view 0
           (with_board host board_canvas empty_board)
           (stringify empty_board) empty_board board_camera).
  - reflexivity.
  - reflexivity.
  - exact empty_board_parses.
  - reflexivity.
  - reflexivity.
  - intros doc' H. vm_compute in H. injection H as <-. exact saved_board_parses.
Defined.

(** The two conditions of the round trip at work.  A coordinate that is
    not a finite number is serialized as [null], so the runtime does not
    read the written document back; and in a file whose [viewports] field
    is an array the record lands on a property JSON.stringify does not
    print, although the save is reported. *)
Example non_finite_camera_is_not_read_back :
  fst (loadSavedPosition (RT := runtime) board
         (snd (saveCurrentPosition (RT := runtime) board_view
                 (with_board host unbounded_canvas empty_board))))
  = Ok (VObject [("tx", VNull); ("ty", VNumber 20); ("tZoom", VNumber 1.5)]).
Proof. vm_compute. reflexivity. Qed.

Example array_viewports_keep_no_record :
  let s := with_board host board_canvas array_board in
  let s' := snd (saveCurrentPosition (RT := runtime) board_view s) in
  well_formed array_board = false
  /\ notices s' = ["Canvas viewport position saved"]
  /\ content_of s' board = Some (stringify array_board)
  /\ fst (loadSavedPosition (RT := runtime) board s') = Ok VNull.
Proof. vm_compute. repeat split. Qed.

(** C3 at [Board.canvas]: deleting the only saved viewport. *)
Lemma viewports_absent_when_empty_witness :
  exists doc',
    deleteSavedPosition (RT := runtime) board_view (with_board host board_canvas saved_board)
    = (Ok true,
       with_vault (written board (stringify doc') (with_board host board_canvas saved_board))
         (with_board host board_canvas saved_board))
    /\ viewports_field doc' = None.
Proof.
  apply (proj2 (proj2 (@viewports_absent_when_empty runtime host board_view
                         (with_board host board_canvas saved_board)
                         (stringify saved_board) saved_board
                         eq_refl saved_board_parses))
           (position_value board_camera)).
  - reflexivity.
  - reflexivity.
  - reflexivity.
Defined.

(** C4 at [Board.canvas]: deleting from a file without viewports, and
    deleting twice from a file with one. *)
Lemma delete_absent_is_noop_witness :
  (fst (deleteSavedPosition (RT := runtime) board_view
          (with_board host board_canvas empty_board)) = Ok false
   /\ vault (snd (deleteSavedPosition (RT := runtime) board_view
                    (with_board host board_canvas empty_board)))
      = vault (with_board host board_canvas empty_board))
  /\ (fst (deleteSavedPosition (RT := runtime) board_view
             (snd (deleteSavedPosition (RT := runtime) board_view
                     (with_board host board_canvas saved_board)))) = Ok false
      /\ vault (snd (deleteSavedPosition (RT := runtime) board_view
                       (snd (deleteSavedPosition (RT := runtime) board_view
                               (with_board host board_canvas saved_board)))))
         = vault (snd (deleteSavedPosition (RT := runtime) board_view
                         (with_board host board_canvas saved_board)))).
Proof.
  split.
  - apply (proj1 (@delete_absent_is_noop runtime host board_view
                    (with_board host board_canvas empty_board)
                    (stringify empty_board) empty_board
                    eq_refl empty_board_parses)).
    reflexivity.
  - apply (proj2 (@delete_absent_is_noop runtime host board_view
                    (with_board host board_canvas saved_board)
                    (stringify saved_board) saved_board
                    eq_refl saved_board_parses)).
    intros doc' H. vm_compute in H. injection H as <-. exact empty_board_parses.
Defined.



(** Where the readiness of the canvas matters: a canvas whose [tZoom] is
    still undefined is saved with [tx] and [ty] only, as [JSON.stringify]
    leaves out a property whose value is [undefined]. *)
Lemma undefined_zoom_is_not_persisted :
  exists text' doc' record,
    content_of (snd (saveCurrentPosition (RT := runtime) board_view
                       (with_board host uninitialized_canvas empty_board))) board
    = Some text'
    /\ parse_text text' = Some doc'
    /\ viewport_entry doc' desktop_mac = Some record
    /\ keys (named_props record) = ["tx"; "ty"]
    /\ is_record record = false.
Proof.
  eexists. eexists. eexists.
  split; [vm_compute; reflexivity|].
  split; [vm_compute; reflexivity|].
  split; [vm_compute; reflexivity|].
  split; reflexivity.
Qed.

(** C6 at [Board.canvas]: saving over a saved board keeps [nodes] and
    [edges]. *)
Lemma writes_leave_the_rest_witness :
  exists doc',
    vault (snd (saveCurrentPosition (RT := runtime) board_view
                  (with_board host fresh_canvas saved_board)))
    = written board (stringify doc') (with_board host fresh_canvas saved_board)
    /\ assoc_get "nodes" (named_props doc') = Some (VArray [] [])
    /\ assoc_get "edges" (named_props doc') = Some (VArray [] []).
Proof.
  destruct (@writes_leave_the_rest runtime host board_view 0
              (with_board host fresh_canvas saved_board)
              (stringify saved_board) saved_board
              eq_refl eq_refl saved_board_parses) as (_ & _ & Hsave & _).
  destruct (Hsave eq_refl) as (doc' & Hdoc & Hvault).
  exists doc'. split; [exact Hvault|].
  vm_compute in Hdoc. injection Hdoc as <-. split; reflexivity.
Defined.

(** C10 at [Board.canvas]: a stored [0] loads as [null]. *)
Lemma load_returns_truthy_entry_only_witness :
  fst (loadSavedPosition (RT := runtime) board (with_board host fresh_canvas zero_board))
  = Ok VNull.
Proof.
  apply (@load_returns_truthy_entry_only runtime host board
           (with_board host fresh_canvas zero_board)
           (stringify zero_board) zero_board (VNumber 0)).
  - reflexivity.
  - exact zero_board_parses.
  - reflexivity.
  - simpl. auto.
Defined.

(** C9 on a host whose canvas lacks [zoomBy].  [restoreViewport] returns
    normally with the callback queued; when the host runs the callback the
    TypeError is thrown out of it uncaught: no failure notice is shown and
    nothing is logged.  The vault is not written. *)
Theorem restore_failure_escapes_the_applier :
  let s := with_board host_without_zoomBy fresh_canvas saved_board in
  let s1 := snd (restoreViewport (RT := runtime) board s) in
  let s2 := snd (run_animation_frame s1) in
  fst (restoreViewport (RT := runtime) board s) = Ok tt
  /\ frames s1 = [ApplyViewport 0 0.5 (position_value board_camera)]
  /\ notices s1 = []
  /\ fst (run_animation_frame s1)
     = Throw (TypeError "canvas.zoomBy is not a function")
  /\ notices s2 = []
  /\ console_errors s2 = []
  /\ vault s2 = vault s.
Proof. vm_compute. repeat split. Qed.

(** On the host with [zoomBy] the same run restores the camera. *)
Example restore_applies_the_camera :
  let s := with_board host fresh_canvas saved_board in
  let s1 := snd (restoreViewport (RT := runtime) board s) in
  let s2 := snd (run_animation_frame s1) in
  fst (run_animation_frame s1) = Ok tt
  /\ notices s2 = ["Canvas viewport restored"]
  /\ canvases s2 0
     = {| live_tx := 10; live_ty := 20; live_tZoom := Some 1.5%float;
          viewportChanged := true; frame_requested := true |}.
Proof. vm_compute. repeat split. Qed.

(** The classifier on the remembered set [{A.canvas}]: reactivating
    [A.canvas] restores nothing, activating [B.canvas] restores it, and so
    does [A.canvas] once it has been closed and forgotten. *)
Example classifier_suppression :
  restorations (snd (on_file_open (RT := runtime) (Some A_canvas) remembering_A)) = []
  /\ restorations (snd (on_file_open (RT := runtime) (Some B_canvas) remembering_A))
     = [B_canvas]
  /\ restorations (snd (on_file_open (RT := runtime) (Some notes_md) remembering_A)) = []
  /\ restorations (snd (on_file_open (RT := runtime) None remembering_A)) = [].
Proof. vm_compute. repeat split. Qed.

(** [A.canvas] is remembered but no longer open (the only open view is
    [Board.canvas]): the next activation forgets it, and reactivating it
    then is a genuine open. *)
Example classifier_genuine_reopen :
  let s1 := snd (on_file_open (RT := runtime) (Some notes_md) remembering_A) in
  openCanvasFiles s1 = ["Board.canvas"]
  /\ restorations (snd (on_file_open (RT := runtime) (Some A_canvas) s1)) = [A_canvas].
Proof. vm_compute. repeat split. Qed.

(** [loadSavedPosition] on a missing file, on text that is not JSON, on
    the JSON text [null] and on a canvas file without viewports. *)
Example load_without_saved_data :
  fst (loadSavedPosition (RT := runtime) A_canvas
         (with_board host fresh_canvas empty_board)) = Ok VNull
  /\ fst (loadSavedPosition (RT := runtime) board (session host fresh_canvas "{oops"))
     = Ok VNull
  /\ fst (loadSavedPosition (RT := runtime) board (session host fresh_canvas "null"))
     = Ok VNull
  /\ fst (loadSavedPosition (RT := runtime) board
            (with_board host fresh_canvas empty_board)) = Ok VNull.
Proof. vm_compute. repeat split. Qed.

End Board.

(* ================================================================== *)
(** * Further runs on the reference runtime *)
(* ================================================================== *)

Module Sessions.
Import Reference.

Lemma moved_board_parses : parse_text (stringify moved_board) = Some moved_board.
Proof. vm_compute. reflexivity. Qed.

Lemma global_board_parses : parse_text (stringify global_board) = Some global_board.
Proof. vm_compute. reflexivity. Qed.

Lemma single_board_parses : parse_text (stringify single_board) = Some single_board.
Proof. vm_compute. reflexivity. Qed.

Lemma empty_board_reads : parse_text (stringify empty_board) = Some empty_board.
Proof. vm_compute. reflexivity. Qed.

Lemma saved_board_reads : parse_text (stringify saved_board) = Some saved_board.
Proof. vm_compute. reflexivity. Qed.

(** The session with the empty board, and the one with the saved board. *)
Definition unsaved : @state host := with_board host board_canvas empty_board.
Definition saved : @state host := with_board host fresh_canvas saved_board.

(** The camera moved to where [fresh_canvas] has it. *)
Definition moved : canvas_ref -> @canvas host := fun _ => fresh_canvas.

(** What the store writes in [unsaved] and in [saved]. *)
Lemma unsaved_writes doc' :
  store_writes (CH := host) board_view unsaved empty_board doc' -> doc' = saved_board.
Proof.
  intros [(c & [= <-] & H) | H]; vm_compute in H; [now injection H|discriminate].
Qed.

Lemma saved_writes doc' :
  store_writes (CH := host) board_view saved saved_board doc' ->
  doc' = moved_board \/ doc' = empty_board.
Proof.
  intros [(c & [= <-] & H) | H]; vm_compute in H; injection H as <-; auto.
Qed.

(** X2 at [Board.canvas]. *)
Lemma store_keeps_documents_well_formed_witness :
  exists doc',
    vault (snd (saveCurrentPosition (RT := runtime) board_view saved))
    = written board (stringify doc') saved
    /\ well_formed doc' = true.
Proof.
  exact (proj1 (@store_keeps_documents_well_formed runtime host board_view saved
                  (stringify saved_board) saved_board
                  eq_refl saved_board_reads eq_refl) 0 eq_refl).
Defined.

(** X3 at [Board.canvas]. *)
Lemma save_twice_is_save_once_witness :
  vault (snd (saveCurrentPosition (RT := runtime) board_view
                (snd (saveCurrentPosition (RT := runtime) board_view unsaved))))
  = vault (snd (saveCurrentPosition (RT := runtime) board_view unsaved)).
Proof.
  apply (@save_twice_is_save_once runtime host board_view 0 unsaved
           (stringify empty_board) empty_board eq_refl eq_refl empty_board_reads eq_refl).
  intros doc' H. vm_compute in H. injection H as <-. exact saved_board_reads.
Defined.

(** X4 at [Board.canvas]: the camera moves to that of [fresh_canvas]. *)
Lemma last_save_wins_witness :
  fst (loadSavedPosition (RT := runtime) board
         (snd (saveCurrentPosition (RT := runtime) board_view
                 (with_canvases moved
                    (snd (saveCurrentPosition (RT := runtime) board_view unsaved))))))
  = Ok (canvas_position (CH := host) fresh_canvas).
Proof.
  apply (@last_save_wins runtime host board_view 0 unsaved
           (stringify empty_board) empty_board moved
           eq_refl eq_refl empty_board_reads eq_refl).
  intros doc1 doc2 H1 H2. vm_compute in H1. injection H1 as <-.
  vm_compute in H2. injection H2 as <-.
  split; [exact saved_board_reads|exact moved_board_parses].
Defined.

(** X5 at [Board.canvas]. *)
Lemma save_then_delete_restores_the_document_witness :
  fst (deleteSavedPosition (RT := runtime) board_view
         (snd (saveCurrentPosition (RT := runtime) board_view unsaved))) = Ok true
  /\ content_of
       (snd (deleteSavedPosition (RT := runtime) board_view
               (snd (saveCurrentPosition (RT := runtime) board_view unsaved))))
       board
     = Some (stringify empty_board).
Proof.
  apply (@save_then_delete_restores_the_document runtime host board_view 0 unsaved
           (stringify empty_board) empty_board
           eq_refl eq_refl empty_board_reads eq_refl eq_refl eq_refl).
  intros doc' H. vm_compute in H. injection H as <-. exact saved_board_reads.
Defined.

(** X6 at [Board.canvas]. *)
Lemma delete_then_load_finds_nothing_witness :
  fst (loadSavedPosition (RT := runtime) board
         (snd (deleteSavedPosition (RT := runtime) board_view saved)))
  = Ok VNull.
Proof.
  apply (@delete_then_load_finds_nothing runtime host board_view saved
           (stringify saved_board) saved_board eq_refl saved_board_reads).
  intros doc' H. vm_compute in H. injection H as <-. exact empty_board_reads.
Defined.

(** X8 at [Board.canvas]: the tablet loads nothing before and after the
    desktop saves. *)
Lemma other_keys_load_the_same_witness :
  fst (loadSavedPosition (RT := runtime) board
         (with_vault (vault (snd (saveCurrentPosition (RT := runtime) board_view unsaved)))
            (on_device tablet unsaved)))
  = fst (loadSavedPosition (RT := runtime) board (on_device tablet unsaved)).
Proof.
  refine (proj1 (@other_keys_load_the_same runtime host board_view unsaved
                   (stringify empty_board) empty_board (on_device tablet unsaved)
                   eq_refl empty_board_reads _ eq_refl _)).
  - intros H. vm_compute in H. discriminate.
  - intros doc' H. apply unsaved_writes in H. subst doc'. exact saved_board_reads.
Defined.

(** X9 at [Board.canvas]: saved on the desktop, loaded on the tablet. *)
Lemma global_viewport_is_shared_witness :
  fst (loadSavedPosition (RT := runtime) board
         (on_device tablet
            (snd (saveCurrentPosition (RT := runtime) board_view (globally unsaved)))))
  = Ok (position_value board_camera).
Proof.
  apply (@global_viewport_is_shared runtime host board_view 0 (globally unsaved)
           (stringify empty_board) empty_board
           (on_device tablet
              (snd (saveCurrentPosition (RT := runtime) board_view (globally unsaved))))
           eq_refl eq_refl empty_board_reads eq_refl eq_refl eq_refl eq_refl).
  intros doc' H. vm_compute in H. injection H as <-. exact global_board_parses.
Defined.

(** X10 at the desktop session. *)
Lemma device_key_is_not_global_witness :
  viewport_key unsaved = "global" <-> useGlobalViewport (settings unsaved) = true.
Proof.
  exact (@device_key_is_not_global host desktop_platform "1920" "1080" "2" unsaved
           eq_refl).
Defined.

(** X13 at [A.canvas]. *)
Lemma nothing_remembered_restores_open_canvases_witness :
  restoration_triggered (snd (onunload remembering_A))
    (snd (on_file_open (RT := runtime) (Some A_canvas) (snd (onunload remembering_A)))).
Proof.
  exact (proj2 (proj2 (proj2
           (@nothing_remembered_restores_open_canvases runtime host A_canvas
              remembering_A eq_refl)))).
Defined.

(** X14 at [Board.canvas] without saved viewports. *)
Lemma restore_without_saved_position_witness :
  notices (snd (restoreViewport (RT := runtime) board unsaved))
  = ["No saved viewport position found"].
Proof.
  refine (proj1 (@restore_without_saved_position runtime host board unsaved _)).
  vm_compute. reflexivity.
Defined.

(** X15 with every leaf closed. *)
Lemma restore_gives_up_silently_witness :
  notices (snd (restoreViewport (RT := runtime) board (closed_workspace saved))) = []
  /\ frames (snd (restoreViewport (RT := runtime) board (closed_workspace saved))) = []
  /\ canvases (snd (restoreViewport (RT := runtime) board (closed_workspace saved)))
     = canvases (closed_workspace saved).
Proof.
  refine (@restore_gives_up_silently runtime host board (closed_workspace saved)
            (position_value board_camera) _ eq_refl I).
  vm_compute. reflexivity.
Defined.

(** X16 at [Board.canvas]: from zoom 1 to zoom 1.5. *)
Lemma restore_queues_one_frame_for_the_first_leaf_witness :
  fst (restoreViewport (RT := runtime) board saved) = Ok tt
  /\ frames (snd (restoreViewport (RT := runtime) board saved))
     = [ApplyViewport 0 0.5 (position_value board_camera)].
Proof.
  refine (proj2 (proj2 (@restore_queues_one_frame_for_the_first_leaf runtime host
                          board saved (position_value board_camera) board_view [] 0
                          1%float _ eq_refl eq_refl eq_refl eq_refl))).
  vm_compute. reflexivity.
Defined.

(** The other branch of X16: on a stored [tZoom] that ToNumber cannot
    convert, [restoreViewport] and the file-open handler that awaits it
    are left by the TypeError; no frame is queued and the user is told
    nothing. *)
Lemma unconvertible_zoom_escapes_restoreViewport :
  let s := with_board host fresh_canvas unconvertible_board in
  let e := TypeError "Cannot convert object to primitive value" in
  parse_text (stringify unconvertible_board) = Some unconvertible_board
  /\ restoreViewport (RT := runtime) board s
     = (Throw e, with_restorations [board] s)
  /\ on_file_open (RT := runtime) (Some board) s
     = (Throw e, with_restorations [board] (with_openCanvasFiles ["Board.canvas"] s)).
Proof. vm_compute. repeat split. Qed.

(** X17 on the host without [panTo]: the zoom stays applied. *)
Lemma frame_zooms_then_pans_without_rollback_witness :
  let s := with_frames [ApplyViewport 0 0.5 (position_value board_camera)]
             (with_board host_without_panTo fresh_canvas saved_board) in
  fst (run_animation_frame s) = Throw (TypeError "canvas.panTo is not a function")
  /\ live_tZoom (canvases (snd (run_animation_frame s)) 0) = Some 1.5%float
  /\ notices (snd (run_animation_frame s)) = [].
Proof.
  intros s.
  rewrite (proj1 (@frame_zooms_then_pans_without_rollback host_without_panTo s 0 0.5
                    (position_value board_camera) [] _ eq_refl eq_refl eq_refl)
             (TypeError "canvas.panTo is not a function") eq_refl).
  vm_compute. repeat split.
Defined.

(** X19 at [Board.canvas] with a saved viewport. *)
Lemma delete_command_reports_what_it_did_witness :
  exists found,
    fst (loadSavedPosition (RT := runtime) board saved) = Ok found
    /\ fst (delete_command (RT := runtime) false saved) = Ok true
    /\ vault (snd (delete_command (RT := runtime) false saved))
       = vault (snd (deleteSavedPosition (RT := runtime) board_view saved))
    /\ notices (snd (delete_command (RT := runtime) false saved))
       = notices saved
         ++ [if truthy found
             then ("Canvas viewport position deleted for " ++ viewport_key saved)%string
             else "No saved viewport position found"].
Proof.
  exact (@delete_command_reports_what_it_did runtime host saved board_view [] eq_refl).
Defined.

(** X20 with only [useGlobalViewport] stored. *)
Lemma stored_settings_override_defaults_witness :
  settings (snd (loadSettings (VObject [("useGlobalViewport", VBool true)]) unsaved))
  = {| debugMode := false; useGlobalViewport := true |}.
Proof.
  rewrite (proj1 (@stored_settings_override_defaults host
                    [("useGlobalViewport", VBool true)] unsaved
                    (@NoDup_cons string "useGlobalViewport" [] (fun H => H)
                       (NoDup_nil string)))).
  reflexivity.
Defined.

(** X21 at [Board.canvas]. *)
Lemma single_viewport_round_trip_witness :
  fst (Legacy.loadSavedPosition (RT := runtime) board
         (snd (Legacy.saveCurrentPosition (RT := runtime) board_view unsaved)))
  = Ok (position_value board_camera).
Proof.
  refine (proj1 (@single_viewport_round_trip runtime host board_view 0 unsaved
                   (stringify empty_board) _ eq_refl eq_refl empty_board_reads _ _)).
  - exact single_board_parses.
  - exact empty_board_reads.
Defined.

(** X22 at a file the single-viewport store has saved. *)
Lemma per_device_store_keeps_the_single_viewport_witness :
  fst (Legacy.loadSavedPosition (RT := runtime) board
         (snd (saveCurrentPosition (RT := runtime) board_view
                 (with_board host board_canvas single_board))))
  = Ok (position_value board_camera).
Proof.
  refine (eq_trans
            (proj1 (@per_device_store_keeps_the_single_viewport runtime host board_view
                      (with_board host board_canvas single_board)
                      (stringify single_board) single_board
                      eq_refl single_board_parses _)) _).
  - intros doc' [(c & [= <-] & H) | H]; vm_compute in H; [|discriminate].
    injection H as <-. vm_compute. reflexivity.
  - vm_compute. reflexivity.
Defined.

End Sessions.
